(** * Sighax simulator: the block builder and the two parser traces

    A shallow embedding of [crypto_engine.py]: the class [SignatureBlock]
    (the byte layout of a decrypted signature block together with the
    offset of every field) and the class [SighaxEngine] (the legitimate
    trace, the two-pass forging, the adversarial trace and the hex dump).

    Conventions of the embedding.
    - Python [int] is [Z]; a [bytes] object is a [list byte].
    - A Python [str] is a [string] holding its UTF-8 encoding.
    - A call that may raise returns a [result]; the exceptions the engine
      can meet are [ValueError] and [IndexError].
    - A [dict] is an association list in insertion order, where writing
      an existing key replaces its value in place. *)

From Stdlib Require Import ZArith List Bool Lia String Ascii.
From Stdlib Require Import Init.Byte Strings.Byte.
From Stdlib Require Import DecimalString.
Import ListNotations.

Local Open Scope string_scope.
Local Open Scope list_scope.
Local Open Scope Z_scope.

(** Concatenation of strings, kept apart from that of lists. *)
Infix "+++" := String.append (at level 60, right associativity).

(* ================================================================== *)
(** ** Exceptions and fallible computations *)

Inductive PyExc : Type := ValueError | IndexError.

Inductive result (A : Type) : Type :=
| Ok (a : A)
| Raise (e : PyExc).

Arguments Ok {A} a.
Arguments Raise {A} e.

Definition bind {A B : Type} (m : result A) (k : A -> result B) : result B :=
  match m with
  | Ok a => k a
  | Raise e => Raise e
  end.

Notation "x <- m ;; k" := (bind m (fun x => k))
  (at level 61, m at next level, right associativity).

Fixpoint mapM {A B : Type} (f : A -> result B) (l : list A) : result (list B) :=
  match l with
  | [] => Ok []
  | x :: r => y <- f x ;; ys <- mapM f r ;; Ok (y :: ys)
  end.

(* ================================================================== *)
(** ** The Python primitives the engine uses *)

Module Py.

(** [len(x)] as a Python integer. *)
Definition len {A : Type} (l : list A) : Z := Z.of_nat (List.length l).

(** One element of [bytes([...])]: integers outside [range(256)] raise
    [ValueError]. *)
Definition byte_of_int (n : Z) : result byte :=
  if (n <? 0) || (255 <? n) then Raise ValueError
  else match Byte.of_N (Z.to_N n) with
       | Some b => Ok b
       | None => Raise ValueError
       end.

(** [bytes(l)] for a list of integers. *)
Definition bytes (l : list Z) : result (list byte) := mapM byte_of_int l.

(** The integer read from a [bytes] object by indexing. *)
Definition int_of_byte (b : byte) : Z := Z.of_N (Byte.to_N b).

(** [x[i]]: a negative index counts from the end, an index out of range
    raises [IndexError]. *)
Definition getitem {A : Type} (l : list A) (i : Z) : result A :=
  let j := if i <? 0 then i + len l else i in
  if (j <? 0) || (len l <=? j) then Raise IndexError
  else match nth_error l (Z.to_nat j) with
       | Some a => Ok a
       | None => Raise IndexError
       end.

(** How a slice bound is clamped into [0 .. len]. *)
Definition clamp (n : Z) (i : Z) : Z :=
  if i <? 0 then Z.max (i + n) 0 else Z.min i n.

(** [x[lo:hi]]; never raises. *)
Definition slice {A : Type} (l : list A) (lo hi : Z) : list A :=
  let a := clamp (len l) lo in
  let b := clamp (len l) hi in
  firstn (Z.to_nat (b - a)) (skipn (Z.to_nat a) l).

(** [x[:hi]]. *)
Definition slice_to {A : Type} (l : list A) (hi : Z) : list A :=
  slice l 0 hi.

(** [range(a, b)]. *)
Definition range (a b : Z) : list Z :=
  map (fun k => a + Z.of_nat k) (seq 0 (Z.to_nat (b - a))).

(** [range(a, b, step)] for a positive [step]. *)
Definition range_step (a b step : Z) : list Z :=
  map (fun k => a + Z.of_nat k * step)
      (seq 0 (Z.to_nat ((b - a + step - 1) / step))).

(** [b'\xFF' * n]: a non-positive count gives the empty string. *)
Definition repeat_byte (b : byte) (n : Z) : list byte :=
  repeat b (Z.to_nat n).

(** [a == b] on [bytes]. *)
Fixpoint bytes_eqb (a b : list byte) : bool :=
  match a, b with
  | [], [] => true
  | x :: a', y :: b' => Byte.eqb x y && bytes_eqb a' b'
  | _, _ => false
  end.

(** [str(n)] and the plain [{n}] of an f-string. *)
Definition str (n : Z) : string := DecimalString.NilZero.string_of_int (Z.to_int n).

(** The upper-case hexadecimal digit of a value below 16. *)
Definition hex_digit (n : N) : ascii :=
  match n with
  | 0 => "0" | 1 => "1" | 2 => "2" | 3 => "3" | 4 => "4" | 5 => "5"
  | 6 => "6" | 7 => "7" | 8 => "8" | 9 => "9" | 10 => "A" | 11 => "B"
  | 12 => "C" | 13 => "D" | 14 => "E" | _ => "F"
  end%N%char.

(** [f'{b:02X}'] for an element of a [bytes] object. *)
Definition fmt_02X (b : byte) : string :=
  let n := Byte.to_N b in
  String (hex_digit (n / 16)) (String (hex_digit (n mod 16)) EmptyString).

(** [data.hex().upper()]. *)
Fixpoint hex_upper (l : list byte) : string :=
  match l with
  | [] => EmptyString
  | b :: r => fmt_02X b +++ hex_upper r
  end.

(** The upper-case digits of a hexadecimal numeral. *)
Fixpoint hex_of_uint (d : Hexadecimal.uint) : string :=
  match d with
  | Hexadecimal.Nil => EmptyString
  | Hexadecimal.D0 d => String "0" (hex_of_uint d)
  | Hexadecimal.D1 d => String "1" (hex_of_uint d)
  | Hexadecimal.D2 d => String "2" (hex_of_uint d)
  | Hexadecimal.D3 d => String "3" (hex_of_uint d)
  | Hexadecimal.D4 d => String "4" (hex_of_uint d)
  | Hexadecimal.D5 d => String "5" (hex_of_uint d)
  | Hexadecimal.D6 d => String "6" (hex_of_uint d)
  | Hexadecimal.D7 d => String "7" (hex_of_uint d)
  | Hexadecimal.D8 d => String "8" (hex_of_uint d)
  | Hexadecimal.D9 d => String "9" (hex_of_uint d)
  | Hexadecimal.Da d => String "A" (hex_of_uint d)
  | Hexadecimal.Db d => String "B" (hex_of_uint d)
  | Hexadecimal.Dc d => String "C" (hex_of_uint d)
  | Hexadecimal.Dd d => String "D" (hex_of_uint d)
  | Hexadecimal.De d => String "E" (hex_of_uint d)
  | Hexadecimal.Df d => String "F" (hex_of_uint d)
  end.

(** [s * n] on strings. *)
Fixpoint str_repeat (c : ascii) (n : nat) : string :=
  match n with
  | O => EmptyString
  | S k => String c (str_repeat c k)
  end.

(** [f'{i:04X}'] for a non-negative [i]: at least four digits, padded
    with zeros on the left. *)
Definition fmt_04X (i : Z) : string :=
  let s := hex_of_uint (N.to_hex_uint (Z.to_N i)) in
  str_repeat "0" (4 - String.length s) +++ s.

(** [f'{s:<{w}}']: left-justified in a field of [w], padded with blanks. *)
Definition ljust (s : string) (w : Z) : string :=
  s +++ str_repeat " " (Z.to_nat w - String.length s).

(** [sep.join(parts)]. *)
Fixpoint join (sep : string) (parts : list string) : string :=
  match parts with
  | [] => EmptyString
  | [p] => p
  | p :: r => p +++ sep +++ join sep r
  end.

(** [chr(b) if 32 <= b < 127 else '.']. *)
Definition printable (b : byte) : ascii :=
  let n := int_of_byte b in
  if (32 <=? n) && (n <? 127) then ascii_of_byte b else "."%char.

(** Writing a key of a dictionary: in place if present, else at the end. *)
Fixpoint dict_set {K V : Type} (eqb : K -> K -> bool)
         (d : list (K * V)) (k : K) (v : V) : list (K * V) :=
  match d with
  | [] => [(k, v)]
  | (k', v') :: r =>
      if eqb k' k then (k', v) :: r else (k', v') :: dict_set eqb r k v
  end.

(** A dictionary display [{k1: v1, k2: v2, ...}]. *)
Definition dict_of {K V : Type} (eqb : K -> K -> bool)
           (items : list (K * V)) : list (K * V) :=
  fold_left (fun d kv => dict_set eqb d (fst kv) (snd kv)) items [].

(** [d.get(k)]. *)
Fixpoint dict_get {K V : Type} (eqb : K -> K -> bool)
         (d : list (K * V)) (k : K) : option V :=
  match d with
  | [] => None
  | (k', v) :: r => if eqb k' k then Some v else dict_get eqb r k
  end.

End Py.

(* ================================================================== *)
(** ** [hashlib.sha256]: SHA-256 as in FIPS 180-4 *)

Module SHA256.

Definition mask32 : Z := 0xFFFFFFFF.
Definition add32 (x y : Z) : Z := Z.land (x + y) mask32.
Definition rotr (n x : Z) : Z :=
  Z.lor (Z.shiftr x n) (Z.land (Z.shiftl x (32 - n)) mask32).
Definition shr (n x : Z) : Z := Z.shiftr x n.

Definition Ch (x y z : Z) : Z :=
  Z.lxor (Z.land x y) (Z.land (Z.lxor x mask32) z).
Definition Maj (x y z : Z) : Z :=
  Z.lxor (Z.lxor (Z.land x y) (Z.land x z)) (Z.land y z).
Definition bsig0 (x : Z) : Z := Z.lxor (Z.lxor (rotr 2 x) (rotr 13 x)) (rotr 22 x).
Definition bsig1 (x : Z) : Z := Z.lxor (Z.lxor (rotr 6 x) (rotr 11 x)) (rotr 25 x).
Definition ssig0 (x : Z) : Z := Z.lxor (Z.lxor (rotr 7 x) (rotr 18 x)) (shr 3 x).
Definition ssig1 (x : Z) : Z := Z.lxor (Z.lxor (rotr 17 x) (rotr 19 x)) (shr 10 x).

Definition K256 : list Z :=
  [0x428A2F98; 0x71374491; 0xB5C0FBCF; 0xE9B5DBA5;
   0x3956C25B; 0x59F111F1; 0x923F82A4; 0xAB1C5ED5;
   0xD807AA98; 0x12835B01; 0x243185BE; 0x550C7DC3;
   0x72BE5D74; 0x80DEB1FE; 0x9BDC06A7; 0xC19BF174;
   0xE49B69C1; 0xEFBE4786; 0x0FC19DC6; 0x240CA1CC;
   0x2DE92C6F; 0x4A7484AA; 0x5CB0A9DC; 0x76F988DA;
   0x983E5152; 0xA831C66D; 0xB00327C8; 0xBF597FC7;
   0xC6E00BF3; 0xD5A79147; 0x06CA6351; 0x14292967;
   0x27B70A85; 0x2E1B2138; 0x4D2C6DFC; 0x53380D13;
   0x650A7354; 0x766A0ABB; 0x81C2C92E; 0x92722C85;
   0xA2BFE8A1; 0xA81A664B; 0xC24B8B70; 0xC76C51A3;
   0xD192E819; 0xD6990624; 0xF40E3585; 0x106AA070;
   0x19A4C116; 0x1E376C08; 0x2748774C; 0x34B0BCB5;
   0x391C0CB3; 0x4ED8AA4A; 0x5B9CCA4F; 0x682E6FF3;
   0x748F82EE; 0x78A5636F; 0x84C87814; 0x8CC70208;
   0x90BEFFFA; 0xA4506CEB; 0xBEF9A3F7; 0xC67178F2].

(** The eight working words of the hash. *)
Record words : Type := Words {
  wa : Z; wb : Z; wc : Z; wd : Z; we : Z; wf : Z; wg : Z; wh : Z
}.

Definition init : words :=
  Words 0x6A09E667 0xBB67AE85 0x3C6EF372 0xA54FF53A
        0x510E527F 0x9B05688C 0x1F83D9AB 0x5BE0CD19.

(** Big-endian bytes of a word and back. *)
Definition octet (x : Z) : byte :=
  match Byte.of_N (Z.to_N (Z.land x 0xFF)) with
  | Some b => b
  | None => x00
  end.

Definition be32 (x : Z) : list byte :=
  [octet (Z.shiftr x 24); octet (Z.shiftr x 16); octet (Z.shiftr x 8); octet x].

Fixpoint word_of (bs : list byte) (acc : Z) : Z :=
  match bs with
  | [] => acc
  | b :: r => word_of r (acc * 256 + Py.int_of_byte b)
  end.

(** Message padding: the bit 1, zeros, and the bit length on 64 bits. *)
Definition pad (msg : list byte) : list byte :=
  let n := Py.len msg in
  let bits := n * 8 in
  msg ++ [x80] ++ repeat x00 (Z.to_nat ((55 - n) mod 64))
      ++ be32 (Z.shiftr bits 32) ++ be32 bits.

(** The sixteen words of a 64-byte block. *)
Fixpoint block_words (k : nat) (bs : list byte) : list Z :=
  match k with
  | O => []
  | S k' => word_of (firstn 4 bs) 0 :: block_words k' (skipn 4 bs)
  end.

(** The message schedule, most recent word first. *)
Fixpoint extend (k : nat) (rev_w : list Z) : list Z :=
  match k with
  | O => rev_w
  | S k' =>
      let w2 := nth 1 rev_w 0 in
      let w7 := nth 6 rev_w 0 in
      let w15 := nth 14 rev_w 0 in
      let w16 := nth 15 rev_w 0 in
      extend k' (add32 (add32 (add32 (ssig1 w2) w7) (ssig0 w15)) w16 :: rev_w)
  end.

Definition schedule (bs : list byte) : list Z :=
  rev (extend 48 (rev (block_words 16 bs))).

Definition round (s : words) (kw : Z * Z) : words :=
  let t1 := add32 (add32 (add32 (add32 (wh s) (bsig1 (we s)))
                                (Ch (we s) (wf s) (wg s))) (fst kw)) (snd kw) in
  let t2 := add32 (bsig0 (wa s)) (Maj (wa s) (wb s) (wc s)) in
  Words (add32 t1 t2) (wa s) (wb s) (wc s) (add32 (wd s) t1) (we s) (wf s) (wg s).

Definition compress (h : words) (bs : list byte) : words :=
  let s := fold_left round (combine K256 (schedule bs)) h in
  Words (add32 (wa h) (wa s)) (add32 (wb h) (wb s))
        (add32 (wc h) (wc s)) (add32 (wd h) (wd s))
        (add32 (we h) (we s)) (add32 (wf h) (wf s))
        (add32 (wg h) (wg s)) (add32 (wh h) (wh s)).

Fixpoint blocks (k : nat) (h : words) (bs : list byte) : words :=
  match k with
  | O => h
  | S k' => blocks k' (compress h (firstn 64 bs)) (skipn 64 bs)
  end.

Definition output (h : words) : list byte :=
  be32 (wa h) ++ be32 (wb h) ++ be32 (wc h) ++ be32 (wd h)
    ++ be32 (we h) ++ be32 (wf h) ++ be32 (wg h) ++ be32 (wh h).

(** [hashlib.sha256(msg).digest()]. *)
Definition digest (msg : list byte) : list byte :=
  let p := pad msg in
  output (blocks (List.length p / 64) init p).

End SHA256.

(** A [bytes] literal of ASCII text. *)
Definition bytes_of_string (s : string) : list byte :=
  map byte_of_ascii (list_ascii_of_string s).


(** The two characters that a string literal cannot hold directly. *)
Definition nl : string := String "010"%char EmptyString.
Definition dq : string := String "034"%char EmptyString.

Definition HASH_LEN : Z := 32.

(* ================================================================== *)
(** ** class [SignatureBlock] *)

Module SignatureBlock.

Definition PADDING_TYPE_PADDED : Z := 0x01.
Definition PADDING_TYPE_UNPADDED : Z := 0x02.
Definition INNER_BLOCK_REAL_LEN : Z := 13.
Definition TOTAL_BLOCK_SIZE : Z := 128.

(** The attributes of an instance once [__init__] has returned. *)
Record t : Type := Make {
  firmware_data : list byte;
  padding_type : Z;
  inner_block_len_byte : Z;
  raw : list byte;
  off_byte0 : Z;
  off_byte1 : Z;
  off_padding_start : Z;
  off_padding_end : Z;
  off_separator : Z;
  off_30_1 : Z;
  off_31 : Z;
  off_30_2 : Z;
  off_0d : Z;
  off_inner_start : Z;
  off_inner_end : Z;
  off_04 : Z;
  off_20 : Z;
  off_correct_hash : Z;
  off_calc_hash : Z;
  correct_hash : list byte;
  calculated_hash : list byte
}.

(** The fifteen recorded offsets, in the order [_build] assigns them. *)
Definition offsets (b : t) : list Z :=
  [off_byte0 b; off_byte1 b; off_padding_start b; off_padding_end b;
   off_separator b; off_30_1 b; off_31 b; off_30_2 b; off_0d b;
   off_inner_start b; off_inner_end b; off_04 b; off_20 b;
   off_correct_hash b; off_calc_hash b].

(** [_build], on the three attributes [__init__] has set. *)
Definition _build (firmware_data : list byte) (padding_type : Z)
           (inner_block_len_byte : Z) : result t :=
  header <- Py.bytes [0x00; padding_type] ;;
  let '(padding, separator) :=
    if padding_type =? 0x01 then
      let fixed_tail :=
        1 + 1 + 1 + 1 + 1 + INNER_BLOCK_REAL_LEN + 1 + 1 + HASH_LEN in
      let pad_len := TOTAL_BLOCK_SIZE - Py.len header - 1 - fixed_tail in
      let pad_len := Z.max pad_len 8 in
      (Py.repeat_byte xff pad_len, [x00])
    else
      ([], [x00]) in
  inner_block <- Py.bytes [0x06; 0x09; 0x60; 0x86; 0x48; 0x01; 0x65;
                           0x03; 0x04; 0x02; 0x01; 0x05; 0x00] ;;
  let correct_hash := SHA256.digest firmware_data in
  lead <- Py.bytes [0x30; 0x31; 0x30; inner_block_len_byte] ;;
  trail <- Py.bytes [0x04; 0x20] ;;
  let after_padding := lead ++ inner_block ++ trail ++ correct_hash in
  let raw := Py.slice_to (header ++ padding ++ separator ++ after_padding)
                         TOTAL_BLOCK_SIZE in
  let off_byte0 := 0 in
  let off_byte1 := 1 in
  let off_padding_start := 2 in
  let off_padding_end :=
    match padding with
    | [] => 1
    | _ :: _ => Py.len (header ++ padding) - 1
    end in
  let off_separator := Py.len (header ++ padding) in
  let off_30_1 := off_separator + 1 in
  let off_31 := off_separator + 2 in
  let off_30_2 := off_separator + 3 in
  let off_0d := off_separator + 4 in
  let off_inner_start := off_0d + 1 in
  let off_inner_end := off_inner_start + INNER_BLOCK_REAL_LEN in
  let off_04 := off_inner_end in
  let off_20 := off_inner_end + 1 in
  let off_correct_hash := off_inner_end + 2 in
  let off_calc_hash := off_correct_hash + HASH_LEN in
  Ok (Make firmware_data padding_type inner_block_len_byte raw
           off_byte0 off_byte1 off_padding_start off_padding_end
           off_separator off_30_1 off_31 off_30_2 off_0d
           off_inner_start off_inner_end off_04 off_20
           off_correct_hash off_calc_hash
           correct_hash correct_hash).

(** [SignatureBlock(firmware_data, padding_type, inner_block_len_override)];
    [None] is the default of the third argument. *)
Definition __init__ (firmware_data : list byte) (padding_type : Z)
           (inner_block_len_override : option Z) : result t :=
  let inner_block_len_byte :=
    match inner_block_len_override with
    | Some v => v
    | None => INNER_BLOCK_REAL_LEN
    end in
  _build firmware_data padding_type inner_block_len_byte.

End SignatureBlock.

Import SignatureBlock.

(* ================================================================== *)
(** ** The step dictionaries of a trace *)

(** One step of a trace.  The keys every step carries are plain fields;
    a key that only some steps carry is an [option], [None] when the
    dictionary has no such key. *)
Record step : Type := Step {
  id : Z;
  title : string;
  desc : string;
  ok : bool;
  tag : string;
  fatal : option bool;
  vuln : option bool;
  vals : list (string * string);
  hex_block : option (list byte);
  highlight_bytes : option (list (Z * string));
  block_offsets : option SignatureBlock.t;
  pointer_at : option Z;
  pointer_lands : option Z
}.

(** [s.get('fatal')] read as a truth value, as the presentation layer
    does. *)
Definition is_fatal (s : step) : bool :=
  match fatal s with
  | Some true => true
  | _ => false
  end.

(** The verdicts of the specification and the tag each is written as. *)
Inductive verdict : Type :=
| INFO | PASS | FAIL | VULNERABLE | EXPLOITED | COMPROMISED | VERIFIED.

Definition verdict_of_tag (tg : string) : option verdict :=
  if String.eqb tg "INFO" then Some INFO
  else if String.eqb tg "PASS" then Some PASS
  else if String.eqb tg "FAIL" then Some FAIL
  else if String.eqb tg "VULN" then Some VULNERABLE
  else if String.eqb tg "EXPLOIT" then Some EXPLOITED
  else if String.eqb tg "PWNED" then Some COMPROMISED
  else if String.eqb tg "VERIFIED ✓" then Some VERIFIED
  else None.

Definition str_dict (items : list (string * string)) : list (string * string) :=
  Py.dict_of String.eqb items.

Definition int_dict (items : list (Z * string)) : list (Z * string) :=
  Py.dict_of Z.eqb items.

(** [{i: name for i in range(a, b)}]. *)
Definition range_dict (a b : Z) (name : string) : list (Z * string) :=
  int_dict (map (fun i => (i, name)) (Py.range a b)).

(* ================================================================== *)
(** ** class [SighaxEngine] *)

Module SighaxEngine.

(** *** [bootrom_verify_correct] *)

(** The body of [bootrom_verify_correct] once [blk] is bound: every
    statement after the construction of the block. *)
Definition verify_correct_steps (blk : SignatureBlock.t)
           (firmware : list byte) : result (list step) :=
  let steps : list step := [] in
  let steps := steps ++ [
    {| id := 0;
       title := "Arranque del bootROM ARM9 — Carga del FIRM";
       desc := "Al encender la 3DS, el bootROM ARM9 es lo primero en ejecutarse." +++ nl +++
               "Lee la imagen FIRM de la NAND y localiza el bloque de firma RSA." +++ nl +++
               "Descifra la firma con la clave pública de Nintendo (hardcoded)" +++ nl +++
               "y parsea el resultado byte a byte.";
       ok := true; tag := "INFO"; fatal := None; vuln := None;
       vals := str_dict [
         ("FIRM magic", dq +++ "FIRM" +++ dq +++ " (0x46 49 52 4D)");
         ("Firma", "256 bytes (RSA-2048)");
         ("Clave pública", "Hardcoded en bootROM (no modificable)");
         ("SHA-256(FIRM)", Py.hex_upper (SHA256.digest firmware))];
       hex_block := None; highlight_bytes := None; block_offsets := None;
       pointer_at := None; pointer_lands := None |}] in
  let steps := steps ++ [
    {| id := 1;
       title := "Descifrar firma: M = S^e mod N";
       desc := "El bootROM calcula M = S^e mod N con la clave pública de Nintendo." +++ nl +++
               "El resultado M es el bloque de firma que se parsea byte a byte.";
       ok := true; tag := "INFO"; fatal := None; vuln := None;
       vals := str_dict [
         ("Operación", "M = S^e mod N");
         ("e", "65537 (0x10001)");
         ("Resultado", "Bloque de 256 bytes → se parsea byte a byte")];
       hex_block := Some (raw blk); highlight_bytes := Some (int_dict []);
       block_offsets := Some blk;
       pointer_at := None; pointer_lands := None |}] in
  b0 <- Py.getitem (raw blk) (off_byte0 blk) ;;
  let b0_ok := Byte.eqb b0 x00 in
  let steps := steps ++ [
    {| id := 2;
       title := "Parser byte[0] = 0x" +++ Py.fmt_02X b0 +++ " — Inicio de firma";
       desc := "Debe ser 0x00. Indica inicio de un bloque de firma RSA.";
       ok := b0_ok; tag := (if b0_ok then "PASS" else "FAIL");
       fatal := Some (negb b0_ok); vuln := None;
       vals := str_dict [
         ("Esperado", "0x00");
         ("Recibido", "0x" +++ Py.fmt_02X b0);
         ("Resultado", if b0_ok then "✓ Correcto" else "✗ FIRM rechazado")];
       hex_block := Some (raw blk);
       highlight_bytes := Some (int_dict [(off_byte0 blk, "header")]);
       block_offsets := Some blk;
       pointer_at := Some (off_byte0 blk); pointer_lands := None |}] in
  if negb b0_ok then Ok steps else
  b1 <- Py.getitem (raw blk) (off_byte1 blk) ;;
  let padding_exists := Byte.eqb b1 x01 in
  let steps := steps ++ [
    {| id := 3;
       title := "Parser byte[1] = 0x" +++ Py.fmt_02X b1 +++ " — Tipo de padding";
       desc := "0x01 = CON padding 0xFF (seguro)" +++ nl +++
               "0x02 = SIN padding (inseguro — ¡el bootROM lo acepta igualmente!)" +++ nl +++ nl +++
               "Aceptar 0x02 es la Vulnerabilidad 1 del bootROM.";
       ok := true; tag := "PASS"; fatal := None; vuln := None;
       vals := str_dict [
         ("Recibido", "0x" +++ Py.fmt_02X b1 +++ " → CON padding (seguro)");
         ("⚠️ Nota", "El bootROM también acepta 0x02 — Vulnerabilidad 1")];
       hex_block := Some (raw blk);
       highlight_bytes := Some (int_dict [(off_byte1 blk, "header")]);
       block_offsets := Some blk;
       pointer_at := Some (off_byte1 blk); pointer_lands := None |}] in
  (* the padding run, checked only when byte 1 announces one *)
  let pad_data := Py.slice (raw blk) (off_padding_start blk) (off_separator blk) in
  let pad_ok := forallb (fun b => Byte.eqb b xff) pad_data in
  let pad_checked := padding_exists && (off_padding_start blk <? off_separator blk) in
  let steps :=
    if pad_checked then steps ++ [
    {| id := 4;
       title := "Parser bytes[2.." +++ Py.str (off_separator blk - 1) +++ "] — Padding 0xFF";
       desc := Py.str (Py.len pad_data) +++
               " bytes de padding. El parser verifica que todos sean 0xFF." +++ nl +++
               "Avanza hasta encontrar el separador 0x00.";
       ok := pad_ok; tag := (if pad_ok then "PASS" else "FAIL");
       fatal := Some (negb pad_ok); vuln := None;
       vals := str_dict [
         ("Bytes de padding", Py.str (Py.len pad_data));
         ("Todos == 0xFF", if pad_ok then "✓ Sí" else "✗ No")];
       hex_block := Some (raw blk);
       highlight_bytes :=
         Some (range_dict (off_padding_start blk) (off_separator blk) "padding");
       block_offsets := Some blk;
       pointer_at := Some (off_padding_start blk); pointer_lands := None |}]
    else steps in
  if pad_checked && negb pad_ok then Ok steps else
  sep <- Py.getitem (raw blk) (off_separator blk) ;;
  let sep_ok := Byte.eqb sep x00 in
  let steps := steps ++ [
    {| id := 5;
       title := "Parser byte[" +++ Py.str (off_separator blk) +++ "] = 0x" +++
                Py.fmt_02X sep +++ " — Separador";
       desc := "Separador 0x00. Fin del padding. Inicio de la estructura ASN.1.";
       ok := sep_ok; tag := (if sep_ok then "PASS" else "FAIL");
       fatal := Some (negb sep_ok); vuln := None;
       vals := str_dict [
         ("Esperado", "0x00");
         ("Recibido", "0x" +++ Py.fmt_02X sep)];
       hex_block := Some (raw blk);
       highlight_bytes := Some (int_dict [(off_separator blk, "separator")]);
       block_offsets := Some blk;
       pointer_at := Some (off_separator blk); pointer_lands := None |}] in
  if negb sep_ok then Ok steps else
  b30a <- Py.getitem (raw blk) (off_30_1 blk) ;;
  b31 <- Py.getitem (raw blk) (off_31 blk) ;;
  b30b <- Py.getitem (raw blk) (off_30_2 blk) ;;
  let steps := steps ++ [
    {| id := 6;
       title := "Parser 0x30, 0x31, 0x30 — Estructura ASN.1";
       desc := "0x30 verificado, 0x31 IGNORADO por el bootROM, 0x30 verificado.";
       ok := Byte.eqb b30a x30 && Byte.eqb b30b x30;
       tag := "PASS"; fatal := None; vuln := None;
       vals := str_dict [
         ("[" +++ Py.str (off_30_1 blk) +++ "]=0x" +++ Py.fmt_02X b30a, "✓ Verificado");
         ("[" +++ Py.str (off_31 blk) +++ "]=0x" +++ Py.fmt_02X b31, "⚠️ IGNORADO por bootROM");
         ("[" +++ Py.str (off_30_2 blk) +++ "]=0x" +++ Py.fmt_02X b30b, "✓ Verificado")];
       hex_block := Some (raw blk);
       highlight_bytes :=
         Some (int_dict [(off_30_1 blk, "der"); (off_31 blk, "ignored");
                         (off_30_2 blk, "der")]);
       block_offsets := Some blk;
       pointer_at := Some (off_30_1 blk); pointer_lands := None |}] in
  od_byte <- Py.getitem (raw blk) (off_0d blk) ;;
  let od_val := Py.int_of_byte od_byte in
  let steps := steps ++ [
    {| id := 7;
       title := "Parser byte[" +++ Py.str (off_0d blk) +++ "] = 0x" +++
                Py.fmt_02X od_byte +++ " (" +++ Py.str od_val +++
                ") — Longitud del inner block";
       desc := "Este byte indica cuántos bytes va a saltar el parser (el inner block)." +++ nl +++
               "Valor = 0x" +++ Py.fmt_02X od_byte +++ " = " +++ Py.str od_val +++
               " → saltará " +++ Py.str od_val +++ " bytes sin leerlos." +++ nl +++ nl +++
               "⚠️ ESTE BYTE ES LA CLAVE DEL EXPLOIT SIGHAX." +++ nl +++
               "Manipulando su valor, el atacante puede mover el puntero del" +++ nl +++
               "parser a cualquier posición del bloque.";
       ok := true; tag := "INFO"; fatal := None; vuln := None;
       vals := str_dict [
         ("Valor", "0x" +++ Py.fmt_02X od_byte +++ " = " +++ Py.str od_val +++
                   " bytes (normal)");
         ("Inner block", "OID SHA-256 — IGNORADO completamente");
         ("Puntero tras skip", "→ offset " +++ Py.str (off_inner_start blk + od_val));
         ("⚠️ En sighax", "Este byte se cambia para mover el puntero al correct_hash")];
       hex_block := Some (raw blk);
       highlight_bytes :=
         Some (int_dict ((off_0d blk, "key_byte")
                 :: range_dict (off_inner_start blk) (off_inner_end blk) "inner"));
       block_offsets := Some blk;
       pointer_at := Some (off_0d blk); pointer_lands := None |}] in
  b04 <- (if off_04 blk <? Py.len (raw blk)
          then Py.getitem (raw blk) (off_04 blk) else Ok x00) ;;
  b20 <- (if off_20 blk <? Py.len (raw blk)
          then Py.getitem (raw blk) (off_20 blk) else Ok x00) ;;
  let steps := steps ++ [
    {| id := 8;
       title := "Parser 0x04, 0x20 — También ignorados";
       desc := "Estos dos bytes también son ignorados. El parser avanza al correct_hash.";
       ok := true; tag := "INFO"; fatal := None; vuln := None;
       vals := str_dict [
         ("[" +++ Py.str (off_04 blk) +++ "]=0x" +++ Py.fmt_02X b04, "IGNORADO");
         ("[" +++ Py.str (off_20 blk) +++ "]=0x" +++ Py.fmt_02X b20, "IGNORADO");
         ("Siguiente", "→ correct_hash en offset " +++ Py.str (off_correct_hash blk))];
       hex_block := Some (raw blk);
       highlight_bytes :=
         Some (int_dict [(off_04 blk, "ignored"); (off_20 blk, "ignored")]);
       block_offsets := Some blk;
       pointer_at := Some (off_04 blk); pointer_lands := None |}] in
  let correct_hash :=
    Py.slice (raw blk) (off_correct_hash blk) (off_correct_hash blk + HASH_LEN) in
  let calculated_hash := SHA256.digest firmware in
  let matched := Py.bytes_eqb correct_hash calculated_hash in
  let steps := steps ++ [
    {| id := 9;
       title := "Comparación: correct_hash vs calculated_hash";
       desc := "El bootROM genera SHA-256 del FIRM en tiempo real (calculated_hash)" +++ nl +++
               "y lo compara con el correct_hash del bloque de firma." +++ nl +++
               "Si coinciden → FIRM auténtico.";
       ok := matched; tag := (if matched then "VERIFIED ✓" else "FAIL");
       fatal := Some (negb matched); vuln := None;
       vals := str_dict [
         ("correct_hash", Py.hex_upper correct_hash);
         ("calculated_hash", Py.hex_upper calculated_hash);
         ("Resultado", if matched then "✓ IDÉNTICOS — FIRM auténtico" else "✗ Rechazado")];
       hex_block := Some (raw blk);
       highlight_bytes :=
         Some (range_dict (off_correct_hash blk) (off_correct_hash blk + HASH_LEN) "hash");
       block_offsets := Some blk;
       pointer_at := Some (off_correct_hash blk); pointer_lands := None |}] in
  Ok steps.

(** [bootrom_verify_correct(firmware)]. *)
Definition bootrom_verify_correct (firmware : list byte) : result (list step) :=
  blk <- SignatureBlock.__init__ firmware 0x01 None ;;
  verify_correct_steps blk firmware.

(** *** [forge_sighax] *)

(** The dictionary [info] that [forge_sighax] returns. *)
Record forge_info : Type := ForgeInfo {
  original_0d : Z;
  forged_0d : Z;
  info_off_0d : Z;
  off_correct : Z;
  off_calc : Z;
  hash_len : Z;
  evil_hash : list byte;
  skip_lands_at : Z
}.

(** [forge_sighax(evil_firmware)]. *)
Definition forge_sighax (evil_firmware : list byte)
  : result (SignatureBlock.t * forge_info) :=
  blk_temp <- SignatureBlock.__init__ evil_firmware 0x02 (Some 13) ;;
  let needed_skip := off_correct_hash blk_temp - off_inner_start blk_temp in
  blk_forged <- SignatureBlock.__init__ evil_firmware 0x02 (Some needed_skip) ;;
  let info :=
    {| original_0d := 13;
       forged_0d := needed_skip;
       info_off_0d := off_0d blk_forged;
       off_correct := off_correct_hash blk_forged;
       off_calc := off_calc_hash blk_forged;
       hash_len := HASH_LEN;
       evil_hash := SHA256.digest evil_firmware;
       skip_lands_at := off_inner_start blk_forged + needed_skip |} in
  Ok (blk_forged, info).

(** *** [bootrom_verify_vulnerable] *)

Definition bootrom_verify_vulnerable (blk : SignatureBlock.t)
           (evil_firmware : list byte) (info : forge_info)
  : result (list step) :=
  let steps : list step := [] in
  let evil_hash := evil_hash info in
  let lands_at := skip_lands_at info in
  let outside := lands_at + HASH_LEN in
  let steps := steps ++ [
    {| id := 0;
       title := "Arranque con FIRM malicioso";
       desc := "El bootROM carga el FIRM modificado de la NAND." +++ nl +++
               "Externamente idéntico a un FIRM legítimo." +++ nl +++
               "El atacante ha brute-forceado una firma S tal que al descifrarla" +++ nl +++
               "con la clave pública de Nintendo produce el bloque manipulado.";
       ok := true; tag := "INFO"; fatal := None; vuln := None;
       vals := str_dict [
         ("FIRM magic", dq +++ "FIRM" +++ dq +++ " — sin modificar");
         ("Payload", "Código ARM9 del atacante (Boot9Strap, etc.)");
         ("SHA-256(evil)", Py.hex_upper evil_hash)];
       hex_block := None; highlight_bytes := None; block_offsets := None;
       pointer_at := None; pointer_lands := None |}] in
  let steps := steps ++ [
    {| id := 1;
       title := "Descifrar firma → bloque manipulado";
       desc := "El bootROM descifra la firma con la clave pública de Nintendo." +++ nl +++
               "Obtiene el bloque diseñado por el atacante." +++ nl +++ nl +++
               "byte[1] = 0x02 → SIN padding (Vulnerabilidad 1)." +++ nl +++
               "Esto reduce enormemente el espacio de búsqueda para" +++ nl +++
               "brute-forcear la firma.";
       ok := true; tag := "EXPLOIT"; fatal := None; vuln := Some true;
       vals := str_dict [
         ("byte[1]", "0x02 — SIN padding (Vulnerabilidad 1)");
         ("Efecto", "Brute-force de firma mucho más viable")];
       hex_block := Some (raw blk);
       highlight_bytes := Some (int_dict [(off_byte1 blk, "vuln")]);
       block_offsets := Some blk;
       pointer_at := None; pointer_lands := None |}] in
  b0 <- Py.getitem (raw blk) (off_byte0 blk) ;;
  b1 <- Py.getitem (raw blk) (off_byte1 blk) ;;
  let steps := steps ++ [
    {| id := 2;
       title := "Parser byte[0]=0x" +++ Py.fmt_02X b0 +++ ", byte[1]=0x" +++
                Py.fmt_02X b1 +++ " — Sin padding";
       desc := "byte[0] = 0x00 ✓" +++ nl +++
               "byte[1] = 0x02 → el bootROM acepta esto." +++ nl +++
               "Salta directamente al separador sin verificar padding 0xFF.";
       ok := true; tag := "VULN"; fatal := None; vuln := Some true;
       vals := str_dict [
         ("byte[0]=0x00", "✓ OK");
         ("byte[1]=0x02", "⚠️ Sin padding — bootROM acepta igualmente");
         ("Padding:", "SALTADO — ningún byte verificado")];
       hex_block := Some (raw blk);
       highlight_bytes :=
         Some (int_dict [(off_byte0 blk, "header"); (off_byte1 blk, "vuln")]);
       block_offsets := Some blk;
       pointer_at := Some (off_byte0 blk); pointer_lands := None |}] in
  od_next <- Py.getitem (raw blk) (off_0d blk) ;;
  let steps := steps ++ [
    {| id := 3;
       title := "Parser: separador, 0x30, 0x31(ignorado), 0x30";
       desc := "El parser avanza por la estructura ASN.1 normalmente." +++ nl +++
               "0x31 ignorado como siempre." +++ nl +++
               "Llega al byte crítico: el 0x0D modificado.";
       ok := true; tag := "INFO"; fatal := None; vuln := None;
       vals := str_dict [
         ("Separador 0x00", "✓");
         ("0x30", "✓");
         ("0x31", "IGNORADO");
         ("0x30", "✓");
         ("Siguiente:", "byte 0x" +++ Py.fmt_02X od_next +++ " en offset " +++
                        Py.str (off_0d blk) +++ " — ¡CLAVE!")];
       hex_block := Some (raw blk);
       highlight_bytes :=
         Some (int_dict [(off_separator blk, "separator"); (off_30_1 blk, "der");
                         (off_31 blk, "ignored"); (off_30_2 blk, "der")]);
       block_offsets := Some blk;
       pointer_at := Some (off_separator blk); pointer_lands := None |}] in
  od_byte <- Py.getitem (raw blk) (off_0d blk) ;;
  let od_val := Py.int_of_byte od_byte in
  let steps := steps ++ [
    {| id := 4;
       title := "⚠️ Parser byte[" +++ Py.str (off_0d blk) +++ "] = 0x" +++
                Py.fmt_02X od_byte +++ " (" +++ Py.str od_val +++
                ") — VULNERABILIDAD CENTRAL";
       desc := "En un FIRM legítimo este byte es 0x0D (= 13)." +++ nl +++
               "El atacante lo ha cambiado a 0x" +++ Py.fmt_02X od_byte +++
               " (= " +++ Py.str od_val +++ ")." +++ nl +++ nl +++
               "El parser va a saltar " +++ Py.str od_val +++ " bytes desde offset " +++
               Py.str (off_inner_start blk) +++ "." +++ nl +++
               "Aterriza en offset " +++ Py.str lands_at +++ "." +++ nl +++ nl +++
               "Offset " +++ Py.str lands_at +++ " = inicio del campo correct_hash." +++ nl +++
               "El parser CREE que está en correct_hash." +++ nl +++
               "Pero en realidad está apuntando al CALCULATED_HASH.";
       ok := true; tag := "VULN"; fatal := None; vuln := Some true;
       vals := str_dict [
         ("Valor legítimo", "0x0D = 13 bytes");
         ("Valor forjado", "0x" +++ Py.fmt_02X od_byte +++ " = " +++ Py.str od_val +++
                           " bytes  ← MANIPULADO");
         ("Salta desde", "offset " +++ Py.str (off_inner_start blk));
         ("Aterriza en", "offset " +++ Py.str lands_at +++ " = inicio de correct_hash");
         ("⚠️ ENGAÑO", "Parser cree estar en correct_hash" +++ nl +++
                       "pero está en calculated_hash")];
       hex_block := Some (raw blk);
       highlight_bytes :=
         Some (int_dict ((off_0d blk, "key_byte")
                 :: range_dict (off_inner_start blk)
                      (Z.min (off_inner_start blk + od_val) (Py.len (raw blk)))
                      "skipped"));
       block_offsets := Some blk;
       pointer_at := Some (off_0d blk); pointer_lands := Some lands_at |}] in
  let steps := steps ++ [
    {| id := 5;
       title := "Parser en offset " +++ Py.str lands_at +++ " — Cree que es correct_hash";
       desc := "El parser ha aterrizado en offset " +++ Py.str lands_at +++ "." +++ nl +++
               "Cree que esto es el correct_hash (32 bytes)." +++ nl +++
               dq +++ "Lee" +++ dq +++ " esos 32 bytes como correct_hash." +++ nl +++
               "Luego salta 32 bytes para ir al calculated_hash..." +++ nl +++
               "...pero aterriza en offset " +++ Py.str outside +++ "," +++ nl +++
               "que está FUERA del bloque de firma.";
       ok := true; tag := "EXPLOIT"; fatal := None; vuln := Some true;
       vals := str_dict [
         (dq +++ "correct_hash" +++ dq +++ " leído",
          if lands_at + HASH_LEN <=? Py.len (raw blk)
          then Py.hex_upper (Py.slice (raw blk) lands_at (lands_at + HASH_LEN))
          else Py.hex_upper evil_hash);
         ("Siguiente offset", Py.str outside +++ " → FUERA del bloque de firma");
         ("Zona de escritura", "Memoria adyacente al bloque de firma")];
       hex_block := Some (raw blk);
       highlight_bytes :=
         Some (range_dict lands_at (Z.min (lands_at + HASH_LEN) (Py.len (raw blk)))
                          "hash_confused");
       block_offsets := Some blk;
       pointer_at := Some lands_at; pointer_lands := None |}] in
  let steps := steps ++ [
    {| id := 6;
       title := "bootROM escribe calculated_hash en offset " +++ Py.str outside +++
                " — FUERA DEL BLOQUE";
       desc := "El bootROM genera SHA-256 del FIRM malicioso en tiempo real" +++ nl +++
               "y lo escribe en offset " +++ Py.str outside +++
               " (fuera del bloque de firma)." +++ nl +++ nl +++
               "SHA-256(evil_FIRM) = " +++
               String.substring 0 32 (Py.hex_upper evil_hash) +++ "...";
       ok := true; tag := "EXPLOIT"; fatal := None; vuln := Some true;
       vals := str_dict [
         ("SHA-256(FIRM evil)", Py.hex_upper evil_hash);
         ("Escrito en offset", Py.str outside +++ " (fuera del bloque)");
         ("Zona afectada", "Memoria contigua al bloque de firma")];
       hex_block := Some (raw blk); highlight_bytes := Some (int_dict []);
       block_offsets := Some blk;
       pointer_at := None; pointer_lands := None |}] in
  let steps := steps ++ [
    {| id := 7;
       title := "💀 Comparación — SIEMPRE COINCIDE";
       desc := "El bootROM compara:" +++ nl +++
               "  • " +++ dq +++ "correct_hash" +++ dq +++ " (offset " +++
               Py.str lands_at +++ "):  SHA-256 del FIRM evil" +++ nl +++
               "  • " +++ dq +++ "calculated_hash" +++ dq +++ " (offset " +++
               Py.str outside +++ "): SHA-256 del FIRM evil" +++ nl +++ nl +++
               "SON EL MISMO HASH DEL MISMO FIRM." +++ nl +++
               "La comparación SIEMPRE tiene éxito, para CUALQUIER FIRM." +++ nl +++ nl +++
               "→ El bootROM acepta el FIRM malicioso como completamente auténtico." +++ nl +++
               "→ ARM9 ejecuta código del atacante con privilegios máximos (ring-1).";
       ok := true; tag := "PWNED"; fatal := None; vuln := Some true;
       vals := str_dict [
         (dq +++ "correct_hash" +++ dq, Py.hex_upper evil_hash);
         (dq +++ "calculated_hash" +++ dq, Py.hex_upper evil_hash);
         ("Coinciden", "✓ SIEMPRE — para cualquier FIRM");
         ("Acceso obtenido", "ARM9 ring-1 · NAND R/W · OTP dump · AES keys");
         ("RESULTADO", "💀 FIRM MALICIOSO ACEPTADO — Sistema comprometido")];
       hex_block := Some (raw blk);
       highlight_bytes :=
         Some (range_dict lands_at (Z.min (lands_at + HASH_LEN) (Py.len (raw blk)))
                          "hash");
       block_offsets := Some blk;
       pointer_at := None; pointer_lands := None |}] in
  Ok steps.

(** The interface [forgeAndTraceExploit]: forge, then replay the forged
    block. *)
Definition forgeAndTraceExploit (evil_firmware : list byte)
  : result (SignatureBlock.t * list step) :=
  r <- forge_sighax evil_firmware ;;
  steps <- bootrom_verify_vulnerable (fst r) evil_firmware (snd r) ;;
  Ok (fst r, steps).

(** *** [hex_dump] *)

(** One line of the dump: the chunk that starts at offset [i]. *)
Definition hex_dump_line (data : list byte) (cols : Z) (i : Z) : string :=
  let chunk := Py.slice data i (i + cols) in
  let h := Py.join " " (map Py.fmt_02X chunk) in
  let a := string_of_list_ascii (map Py.printable chunk) in
  Py.fmt_04X i +++ "  " +++ Py.ljust h (cols * 3) +++ "  " +++ a.

(** [hex_dump(data, cols)]: a zero step of [range] raises [ValueError],
    a negative one gives no line. *)
Definition hex_dump (data : list byte) (cols : Z) : result string :=
  if cols =? 0 then Raise ValueError
  else if cols <? 0 then Ok (Py.join nl [])
  else Ok (Py.join nl (map (hex_dump_line data cols)
                           (Py.range_step 0 (Py.len data) cols))).

End SighaxEngine.

Import SighaxEngine.

(* ================================================================== *)
(** * [ui_verify.py]: where the view puts the cursor *)

Module UiVerify.

(** [HIGHLIGHT_TO_SEG]: from the name of a highlight to the segment of
    the block bar. *)
Definition HIGHLIGHT_TO_SEG : list (string * string) :=
  str_dict [
    ("header", "start");
    ("padtype", "padtype");
    ("padding", "padding");
    ("separator", "sep");
    ("der", "asn1_30a");
    ("ignored", "asn1_31");
    ("key_byte", "len_byte");
    ("inner", "inner");
    ("skipped", "inner");
    ("hash", "correct_hash");
    ("hash_confused", "correct_hash");
    ("vuln", "padtype")].

(** [get_cursor_and_active(step)]: [step.get('highlight_bytes', {})],
    then the segment of the first value of the dictionary, [None] when
    the dictionary is empty or the name is not a key of the map. *)
Definition get_cursor_and_active (s : step)
  : option string * option string :=
  let highlights :=
    match highlight_bytes s with
    | Some d => d
    | None => []
    end in
  match map snd highlights with
  | [] => (None, None)
  | first :: _ =>
      let seg := Py.dict_get String.eqb HIGHLIGHT_TO_SEG first in
      (seg, seg)
  end.

End UiVerify.

Import UiVerify.

(* ================================================================== *)
(** * Definitions used to state the properties *)

(** The firmware label of the demonstration. *)
Definition demo_firmware : list byte :=
  bytes_of_string "NATIVE_FIRM v11.17 ARM9=0x08006000 ARM11=0x1FF80000".

(** ** The two layouts [_build] can produce *)

Definition inner_block_bytes : list byte :=
  [x06; x09; x60; x86; x48; x01; x65; x03; x04; x02; x01; x05; x00].

(** What follows the skip-length byte. *)
Definition after_skip (h : list byte) : list byte :=
  inner_block_bytes ++ [x04; x20] ++ h.

(** What precedes the skip-length byte, with and without padding. *)
Definition padded_lead : list byte :=
  [x00; x01] ++ repeat xff 73 ++ [x00; x30; x31; x30].

Definition unpadded_lead (ptype : byte) : list byte :=
  [x00; ptype; x00; x30; x31; x30].

Definition padded_raw (skip : byte) (h : list byte) : list byte :=
  padded_lead ++ skip :: after_skip h.

Definition unpadded_raw (ptype skip : byte) (h : list byte) : list byte :=
  unpadded_lead ptype ++ skip :: after_skip h.

Definition padded_block (F : list byte) (ib : Z) (skip : byte) : SignatureBlock.t :=
  Make F 0x01 ib (padded_raw skip (SHA256.digest F))
       0 1 2 74 75 76 77 78 79 80 93 93 94 95 127
       (SHA256.digest F) (SHA256.digest F).

Definition unpadded_block (F : list byte) (pt ib : Z) (ptype skip : byte)
  : SignatureBlock.t :=
  Make F pt ib (unpadded_raw ptype skip (SHA256.digest F))
       0 1 2 1 2 3 4 5 6 7 20 20 21 22 54
       (SHA256.digest F) (SHA256.digest F).

(** What [forge_sighax] returns for the firmware [F]. *)
Definition forged_block (F : list byte) : SignatureBlock.t :=
  unpadded_block F 0x02 15 x02 x0f.

Definition forged_info (F : list byte) : forge_info :=
  {| original_0d := 13; forged_0d := 15; info_off_0d := 6;
     off_correct := 22; off_calc := 54; hash_len := 32;
     evil_hash := SHA256.digest F; skip_lands_at := 22 |}.

Definition padded_offsets : list Z :=
  [0; 1; 2; 74; 75; 76; 77; 78; 79; 80; 93; 93; 94; 95; 127].

Definition unpadded_offsets : list Z :=
  [0; 1; 2; 1; 2; 3; 4; 5; 6; 7; 20; 20; 21; 22; 54].

(** The skip byte [__init__] stores for an optional override. *)
Definition skip_of (ov : option Z) : Z :=
  match ov with
  | Some v => v
  | None => INNER_BLOCK_REAL_LEN
  end.

(** ** Comparing two [raw] buffers byte by byte *)

(** The positions, counted from [i], at which two buffers differ. *)
Fixpoint diff_from (i : Z) (a b : list byte) : list Z :=
  match a, b with
  | x :: a', y :: b' =>
      (if Byte.eqb x y then [] else [i]) ++ diff_from (i + 1) a' b'
  | _, _ => []
  end.

Definition changed_positions (a b : list byte) : list Z := diff_from 0 a b.

(** ** Reading a trace *)

(** The block [blk] with its bytes replaced by [r]: what the parser
    reads when the buffer has been tampered with after construction. *)
Definition with_raw (blk : SignatureBlock.t) (r : list byte) : SignatureBlock.t :=
  Make (firmware_data blk) (padding_type blk) (inner_block_len_byte blk) r
       (off_byte0 blk) (off_byte1 blk) (off_padding_start blk)
       (off_padding_end blk) (off_separator blk) (off_30_1 blk) (off_31 blk)
       (off_30_2 blk) (off_0d blk) (off_inner_start blk) (off_inner_end blk)
       (off_04 blk) (off_20 blk) (off_correct_hash blk) (off_calc_hash blk)
       (correct_hash blk) (calculated_hash blk).

(** A digit or one of the capitals A to F. *)
Definition upper_hex_char (c : ascii) : bool :=
  let n := nat_of_ascii c in
  ((48 <=? n)%nat && (n <=? 57)%nat) || ((65 <=? n)%nat && (n <=? 70)%nat).

Fixpoint upper_hex_string (s : string) : bool :=
  match s with
  | EmptyString => true
  | String c r => upper_hex_char c && upper_hex_string r
  end.

(** The fixed 95 bytes of a padded block, and the fixed 22 bytes of an
    unpadded one: everything but the digest. *)
Definition padded_fixed (skip : byte) : list byte :=
  padded_lead ++ skip :: inner_block_bytes ++ [x04; x20].

Definition unpadded_fixed (ptype skip : byte) : list byte :=
  unpadded_lead ptype ++ skip :: inner_block_bytes ++ [x04; x20].

(** Where the step that moves the cursor says it lands: the first
    [pointer_lands] of the trace. *)
Fixpoint pointer_lands_of (steps : list step) : option Z :=
  match steps with
  | [] => None
  | s :: r =>
      match pointer_lands s with
      | Some p => Some p
      | None => pointer_lands_of r
      end
  end.

(** ** Reading a hex dump back *)

(** The repository has no reader of dumps.  This one follows the
    specification's sentence on the round trip: it reads the hexadecimal
    columns of each line and ignores the offset column before them and
    the gutter of printable characters after them. *)

Definition newline : ascii := "010"%char.
Definition blank : ascii := " "%char.

(** The lines of a text, cut at every newline. *)
Fixpoint split_lines (cs : list ascii) : list (list ascii) :=
  match cs with
  | [] => [[]]
  | c :: r =>
      if Ascii.eqb c newline then [] :: split_lines r
      else match split_lines r with
           | l :: ls => (c :: l) :: ls
           | [] => [[c]]
           end
  end.

(** The value of a hexadecimal digit. *)
Definition hex_val (c : ascii) : option N :=
  let n := N_of_ascii c in
  if (48 <=? n)%N && (n <=? 57)%N then Some (n - 48)%N
  else if (65 <=? n)%N && (n <=? 70)%N then Some (n - 55)%N
  else None.

(** The byte two hexadecimal digits write. *)
Definition byte_of_hex (hi lo : ascii) : option byte :=
  match hex_val hi, hex_val lo with
  | Some a, Some b => Byte.of_N (16 * a + b)
  | _, _ => None
  end.

(** A line without its offset column: the offset has no blank, and two
    blanks follow it. *)
Fixpoint drop_offset_column (cs : list ascii) : list ascii :=
  match cs with
  | [] => []
  | c :: r => if Ascii.eqb c blank then skipn 2 cs else drop_offset_column r
  end.

(** At most [cols] bytes, each written as two digits and followed by
    one character; reading stops where no two digits stand. *)
Fixpoint parse_hex_columns (cols : nat) (cs : list ascii) : list byte :=
  match cols with
  | O => []
  | S k =>
      match cs with
      | hi :: lo :: r =>
          match byte_of_hex hi lo with
          | Some b => b :: parse_hex_columns k (tl r)
          | None => []
          end
      | _ => []
      end
  end.

Definition parse_dump_line (cols : nat) (line : list ascii) : list byte :=
  parse_hex_columns cols (drop_offset_column line).

(** The bytes a dump of [cols] columns shows. *)
Definition reparse_hex_columns (cols : nat) (dump : string) : list byte :=
  List.concat (map (parse_dump_line cols) (split_lines (list_ascii_of_string dump))).

(** ** The characters of a dump *)

Definition not_newline (c : ascii) : bool := negb (Ascii.eqb c newline).
Definition not_blank (c : ascii) : bool := negb (Ascii.eqb c blank).

(** A byte as the dump writes it: two digits and a blank. *)
Definition group (b : byte) : list ascii :=
  list_ascii_of_string (Py.fmt_02X b) ++ [blank].

(** The line of a chunk that is not empty and fits the sixteen columns. *)
Definition line_chars (i : Z) (chunk : list byte) : list ascii :=
  list_ascii_of_string (Py.fmt_04X i) ++ blank :: blank ::
  (List.concat (map group chunk) ++ repeat blank (48 - 3 * List.length chunk) ++
   blank :: blank :: map Py.printable chunk).


(* ================================================================== *)
(** * Tactics *)

(** The constants of [_build] are bytes. *)
Ltac constant_bytes :=
  change (Py.byte_of_int 0) with (Ok x00);
  change (Py.byte_of_int 6) with (Ok x06);
  change (Py.byte_of_int 9) with (Ok x09);
  change (Py.byte_of_int 96) with (Ok x60);
  change (Py.byte_of_int 134) with (Ok x86);
  change (Py.byte_of_int 72) with (Ok x48);
  change (Py.byte_of_int 101) with (Ok x65);
  change (Py.byte_of_int 3) with (Ok x03);
  change (Py.byte_of_int 4) with (Ok x04);
  change (Py.byte_of_int 5) with (Ok x05);
  change (Py.byte_of_int 48) with (Ok x30);
  change (Py.byte_of_int 49) with (Ok x31);
  change (Py.byte_of_int 32) with (Ok x20).

(** Closed arithmetic side conditions. *)
Ltac closed_bounds := vm_compute; repeat split; discriminate.

(** Evaluating the closed reads and tests of a trace, one at a time,
    so that the branch not taken is dropped. *)
Ltac evaluate_reads :=
  repeat match goal with
  | |- context [bind (Py.getitem ?l ?i) _] =>
      let v := eval vm_compute in (Py.getitem l i) in
      change (Py.getitem l i) with v; cbn [bind]
  | |- context [if ?c then _ else _] =>
      let v := eval vm_compute in c in
      match v with
      | true => change c with true
      | false => change c with false
      end; cbv iota
  end.


(* ================================================================== *)
(** * Definitions used for the further properties *)

(** ** Arbitrary buffers at the offsets of the two layouts *)

(** Any 127 bytes, cut at the offsets of a padded block: byte 0, byte 1,
    the 73 bytes of the padding run, the separator, the 19 bytes from
    the first marker to 0x20, and the 32 bytes of the hash field. *)
Definition padded_shape (b0 b1 : byte) (pad : list byte) (sep : byte)
           (mid h : list byte) : list byte :=
  (b0 :: b1 :: pad) ++ (sep :: mid) ++ h.

(** Any 54 bytes, cut at the offsets of an unpadded block. *)
Definition unpadded_shape (b0 b1 sep : byte) (mid h : list byte) : list byte :=
  (b0 :: b1 :: sep :: mid) ++ h.

(** What the legitimate trace comes to, from the outcome of its tests:
    the number of steps, then the number, the tag and the fatality of
    the last step.  [with_run] says whether the step of the padding run
    is part of the trace. *)
Definition legit_outcome (b0_ok with_run run_ok sep_ok matched : bool)
  : nat * Z * string * bool :=
  if negb b0_ok then (3%nat, 2, "FAIL", true)
  else if with_run && negb run_ok then (5%nat, 4, "FAIL", true)
  else if negb sep_ok then ((if with_run then 6 else 5)%nat, 5, "FAIL", true)
  else ((if with_run then 10 else 9)%nat, 9,
        (if matched then "VERIFIED ✓" else "FAIL"), negb matched).

(** Whether the tests of the legitimate trace all pass. *)
Definition legit_accepts (b0_ok with_run run_ok sep_ok matched : bool) : bool :=
  b0_ok && (negb with_run || run_ok) && sep_ok && matched.

(** The last step of a trace. *)
Definition final_step (steps : list step) : option step :=
  nth_error steps (List.length steps - 1).

(** Whether no step but the last is fatal. *)
Definition only_last_may_be_fatal (steps : list step) : bool :=
  forallb (fun s => negb (is_fatal s)) (removelast steps).

(** The step of a trace that carries the number [n]. *)
Definition step_numbered (n : Z) (steps : list step) : option step :=
  find (fun s => id s =? n) steps.

(** Whether every highlighted offset and the cursor of a step are
    indices of the bytes the step shows. *)
Definition offsets_inside (s : step) : bool :=
  match hex_block s with
  | None =>
      match highlight_bytes s, pointer_at s, pointer_lands s with
      | None, None, None => true
      | _, _, _ => false
      end
  | Some r =>
      let inside k := (0 <=? k) && (k <? Py.len r) in
      match highlight_bytes s with
      | Some d => forallb (fun kv => inside (fst kv)) d
      | None => true
      end
      && match pointer_at s with Some k => inside k | None => true end
      && match pointer_lands s with Some k => inside k | None => true end
  end.

(** Evaluating the closed tests of a trace whose reads are known. *)
Ltac evaluate_tests :=
  repeat (cbn [bind];
          match goal with
          | |- context [if ?c then _ else _] =>
              let v := eval vm_compute in c in
              match v with
              | true => change c with true
              | false => change c with false
              end; cbv iota
          end).

(** Replacing the fifteen offsets of a block by their values. *)
Ltac use_offsets H :=
  unfold offsets, padded_offsets, unpadded_offsets in H;
  injection H as -> -> -> -> -> -> -> -> -> -> -> -> -> -> ->.

(** The nineteen bytes a built block holds between the separator and
    the hash field. *)
Definition built_mid (skip : byte) : list byte :=
  [x30; x31; x30; skip] ++ inner_block_bytes ++ [x04; x20].

(** Whether no step of a trace is fatal. *)
Definition none_fatal (steps : list step) : bool :=
  forallb (fun s => negb (is_fatal s)) steps.

(** ** The text of a dump *)





(* ================================================================== *)
(** * Properties *)

(** ** The primitives *)

Lemma digest_length (msg : list byte) : List.length (SHA256.digest msg) = 32%nat.
Proof. reflexivity. Qed.

(** The digests [hashlib] gives for three test messages, of no block,
    one block and two blocks. *)
Example digest_of_empty :
  Py.hex_upper (SHA256.digest []) =
  "E3B0C44298FC1C149AFBF4C8996FB92427AE41E4649B934CA495991B7852B855".
Proof. vm_compute. reflexivity. Qed.

Example digest_of_abc :
  Py.hex_upper (SHA256.digest (bytes_of_string "abc")) =
  "BA7816BF8F01CFEA414140DE5DAE2223B00361A396177A9CB410FF61F20015AD".
Proof. vm_compute. reflexivity. Qed.

Example digest_of_two_blocks :
  Py.hex_upper
    (SHA256.digest
       (bytes_of_string
          "abcdbcdecdefdefgefghfghighijhijkijkljklmklmnlmnomnopnopq")) =
  "248D6A61D20638B8E5C026930C3E6039A33CE45964FF2167F6ECEDD419DB06C1".
Proof. vm_compute. reflexivity. Qed.

Lemma byte_of_int_ok (n : Z) :
  0 <= n <= 255 ->
  exists b, Py.byte_of_int n = Ok b /\ Py.int_of_byte b = n.
Proof.
  intros Hn. unfold Py.byte_of_int, Py.int_of_byte.
  assert (Hlo : (n <? 0) = false) by (apply Z.ltb_ge; lia).
  assert (Hhi : (255 <? n) = false) by (apply Z.ltb_ge; lia).
  rewrite Hlo, Hhi. cbn [orb].
  destruct (Byte.of_N (Z.to_N n)) as [b|] eqn:E.
  - exists b. split; [reflexivity|].
    apply Byte.to_of_N in E. rewrite E. lia.
  - apply Byte.of_N_None_iff in E. lia.
Qed.

Lemma byte_of_int_raises (n : Z) :
  n < 0 \/ 255 < n -> Py.byte_of_int n = Raise ValueError.
Proof.
  intros Hn. unfold Py.byte_of_int.
  destruct Hn as [Hn|Hn].
  - apply Z.ltb_lt in Hn. rewrite Hn. reflexivity.
  - apply Z.ltb_lt in Hn. rewrite Hn. rewrite orb_true_r. reflexivity.
Qed.

Lemma byte_of_int_inv (n : Z) (b : byte) :
  Py.byte_of_int n = Ok b -> 0 <= n <= 255 /\ Py.int_of_byte b = n.
Proof.
  intros H.
  destruct (Z_lt_dec n 0) as [Hlo|Hlo];
    [rewrite byte_of_int_raises in H by lia; discriminate|].
  destruct (Z_lt_dec 255 n) as [Hhi|Hhi];
    [rewrite byte_of_int_raises in H by lia; discriminate|].
  split; [lia|].
  destruct (byte_of_int_ok n) as (b' & E & Hb'); [lia|].
  rewrite E in H. injection H as <-. exact Hb'.
Qed.

Lemma slice_to_all {A : Type} (l : list A) (n : Z) :
  Py.len l <= n -> Py.slice_to l n = l.
Proof.
  unfold Py.slice_to, Py.slice, Py.clamp, Py.len. intros H.
  cbn [Z.ltb Z.compare].
  assert (Hn : (n <? 0) = false) by (apply Z.ltb_ge; lia).
  rewrite Hn, (Z.min_l 0) by lia. rewrite Z.min_r by lia.
  rewrite Z.sub_0_r, Nat2Z.id. cbn [Z.to_nat skipn]. apply firstn_all.
Qed.

Lemma bytes_eqb_refl (l : list byte) : Py.bytes_eqb l l = true.
Proof.
  induction l as [|b l IH]; [reflexivity|].
  cbn [Py.bytes_eqb]. rewrite IH.
  rewrite (Byte.byte_dec_lb eq_refl). reflexivity.
Qed.


Lemma getitem_nonneg {A : Type} (l : list A) (i : Z) :
  0 <= i ->
  Py.getitem l i =
  match nth_error l (Z.to_nat i) with
  | Some a => Ok a
  | None => Raise IndexError
  end.
Proof.
  intros Hi. unfold Py.getitem, Py.len. cbv zeta.
  assert (E : (i <? 0) = false) by (apply Z.ltb_ge; lia).
  rewrite !E. cbn [orb].
  destruct (Z.of_nat (List.length l) <=? i) eqn:Hle; [|reflexivity].
  apply Z.leb_le in Hle.
  assert (Hnone : nth_error l (Z.to_nat i) = None)
    by (apply nth_error_None; lia).
  rewrite Hnone. reflexivity.
Qed.

(** Reading inside the first part of a concatenation. *)
Lemma getitem_app_lead {A : Type} (p s : list A) (i : Z) :
  0 <= i < Py.len p -> Py.getitem (p ++ s) i = Py.getitem p i.
Proof.
  intros Hi. rewrite !getitem_nonneg by lia.
  rewrite nth_error_app1; [reflexivity|].
  unfold Py.len in Hi. lia.
Qed.

(** Reading the element that follows the first part. *)
Lemma getitem_app_here {A : Type} (p s : list A) (x : A) :
  Py.getitem (p ++ x :: s) (Py.len p) = Ok x.
Proof.
  unfold Py.len. rewrite getitem_nonneg by lia.
  rewrite Nat2Z.id, nth_error_app2 by lia.
  rewrite Nat.sub_diag. reflexivity.
Qed.

Lemma slice_nonneg {A : Type} (l : list A) (lo hi : Z) :
  0 <= lo <= hi -> hi <= Py.len l ->
  Py.slice l lo hi = firstn (Z.to_nat (hi - lo)) (skipn (Z.to_nat lo) l).
Proof.
  intros H1 H2. unfold Py.slice, Py.clamp.
  assert (E1 : (lo <? 0) = false) by (apply Z.ltb_ge; lia).
  assert (E2 : (hi <? 0) = false) by (apply Z.ltb_ge; lia).
  rewrite E1, E2, !Z.min_l by lia. reflexivity.
Qed.

(** Slicing inside the first part of a concatenation. *)
Lemma slice_app_lead {A : Type} (p s : list A) (lo hi : Z) :
  0 <= lo <= hi -> hi <= Py.len p ->
  Py.slice (p ++ s) lo hi = Py.slice p lo hi.
Proof.
  intros H1 H2. unfold Py.len in H2.
  rewrite !slice_nonneg; unfold Py.len; rewrite ?length_app; try lia.
  rewrite skipn_app, firstn_app, length_skipn.
  replace (Z.to_nat (hi - lo) - (List.length p - Z.to_nat lo))%nat with 0%nat by lia.
  rewrite firstn_O, app_nil_r. reflexivity.
Qed.

(** Slicing exactly the last part of a concatenation. *)
Lemma slice_app_rest {A : Type} (p s : list A) :
  Py.slice (p ++ s) (Py.len p) (Py.len p + Py.len s) = s.
Proof.
  unfold Py.len. rewrite slice_nonneg; unfold Py.len; rewrite ?length_app; try lia.
  replace (Z.of_nat (List.length p) + Z.of_nat (List.length s)
           - Z.of_nat (List.length p)) with (Z.of_nat (List.length s)) by lia.
  rewrite !Nat2Z.id, skipn_app, skipn_all, Nat.sub_diag.
  cbn [app skipn]. apply firstn_all.
Qed.

Lemma byte_eqb_refl (b : byte) : Byte.eqb b b = true.
Proof. apply Byte.byte_dec_lb. reflexivity. Qed.

Lemma byte_eqb_neq (a b : byte) : a <> b -> Byte.eqb a b = false.
Proof.
  intros H. destruct (Byte.eqb a b) eqn:E; [|reflexivity].
  apply Byte.byte_dec_bl in E. contradiction.
Qed.

Lemma diff_from_same (i : Z) (l : list byte) : diff_from i l l = [].
Proof.
  revert i. induction l as [|b l IH]; intros i; [reflexivity|].
  cbn [diff_from]. rewrite byte_eqb_refl, IH. reflexivity.
Qed.

(** Two buffers that differ in one place only. *)
Lemma diff_from_one_place (i : Z) (p s : list byte) (x y : byte) :
  diff_from i (p ++ x :: s) (p ++ y :: s) =
  if Byte.eqb x y then [] else [i + Py.len p].
Proof.
  revert i. induction p as [|a p IH]; intros i.
  - cbn [app diff_from]. rewrite diff_from_same, app_nil_r.
    unfold Py.len. cbn [List.length Z.of_nat]. rewrite Z.add_0_r. reflexivity.
  - cbn [app diff_from]. rewrite byte_eqb_refl, IH. cbn [app].
    unfold Py.len. cbn [List.length]. rewrite Nat2Z.inj_succ.
    replace (i + 1 + Z.of_nat (List.length p))
      with (i + Z.succ (Z.of_nat (List.length p))) by lia.
    reflexivity.
Qed.

Lemma nth_error_one_place {A : Type} (p s : list A) (x y : A) (n : nat) :
  n <> List.length p ->
  nth_error (p ++ x :: s) n = nth_error (p ++ y :: s) n.
Proof.
  intros Hn. destruct (Nat.lt_ge_cases n (List.length p)) as [Hlt|Hge].
  - rewrite !nth_error_app1 by exact Hlt. reflexivity.
  - rewrite !nth_error_app2 by exact Hge.
    destruct (n - List.length p)%nat eqn:E; [lia|]. reflexivity.
Qed.

Lemma int_of_byte_inj (a b : byte) :
  Py.int_of_byte a = Py.int_of_byte b -> a = b.
Proof.
  unfold Py.int_of_byte. intros H. apply N2Z.inj in H.
  apply (f_equal Byte.of_N) in H. rewrite !Byte.of_to_N in H.
  injection H as ->. reflexivity.
Qed.

Lemma slice_app_rest_at {A : Type} (p s : list A) (a b : Z) :
  a = Py.len p -> b = a + Py.len s -> Py.slice (p ++ s) a b = s.
Proof. intros -> ->. apply slice_app_rest. Qed.

(** ** The two layouts *)

Lemma padded_raw_length (skip : byte) (h : list byte) :
  List.length h = 32%nat -> List.length (padded_raw skip h) = 127%nat.
Proof.
  intros H. unfold padded_raw, padded_lead, after_skip, inner_block_bytes.
  rewrite !length_app, repeat_length. cbn [List.length].
  rewrite !length_app, H. reflexivity.
Qed.

Lemma unpadded_raw_length (ptype skip : byte) (h : list byte) :
  List.length h = 32%nat -> List.length (unpadded_raw ptype skip h) = 54%nat.
Proof.
  intros H. unfold unpadded_raw, unpadded_lead, after_skip, inner_block_bytes.
  rewrite !length_app. cbn [List.length].
  rewrite !length_app, H. reflexivity.
Qed.

Lemma build_padded (F : list byte) (ib : Z) (skip : byte) :
  Py.byte_of_int ib = Ok skip ->
  _build F 0x01 ib = Ok (padded_block F ib skip).
Proof.
  intros Hib. unfold _build, Py.bytes.
  cbn [mapM]. rewrite Hib.
  change (Py.byte_of_int 1) with (Ok x01).
  change (Py.byte_of_int 2) with (Ok x02).
  constant_bytes.
  cbn [bind Z.eqb Pos.eqb].
  change (Py.repeat_byte xff _) with (repeat xff 73).
  rewrite slice_to_all.
  - reflexivity.
  - unfold Py.len. rewrite !length_app, repeat_length, digest_length.
    vm_compute. discriminate.
Qed.

Lemma build_unpadded (F : list byte) (pt ib : Z) (ptype skip : byte) :
  pt <> 0x01 ->
  Py.byte_of_int pt = Ok ptype ->
  Py.byte_of_int ib = Ok skip ->
  _build F pt ib = Ok (unpadded_block F pt ib ptype skip).
Proof.
  intros Hpt Hb Hib. unfold _build, Py.bytes.
  cbn [mapM]. rewrite Hib, Hb.
  change (Py.byte_of_int 0) with (Ok x00).
  cbn [bind].
  apply Z.eqb_neq in Hpt. rewrite Hpt.
  change (Py.byte_of_int 1) with (Ok x01).
  change (Py.byte_of_int 2) with (Ok x02).
  constant_bytes.
  cbn [bind].
  rewrite slice_to_all.
  - reflexivity.
  - unfold Py.len. rewrite !length_app, digest_length.
    vm_compute. discriminate.
Qed.

(** A padding type or a skip byte outside [range(256)] makes the
    constructor raise. *)
Lemma build_bad_padding_type (F : list byte) (pt ib : Z) :
  pt < 0 \/ 255 < pt -> _build F pt ib = Raise ValueError.
Proof.
  intros H. unfold _build, Py.bytes. cbn [mapM].
  change (Py.byte_of_int 0) with (Ok x00).
  rewrite (byte_of_int_raises pt H). reflexivity.
Qed.

Lemma build_bad_skip (F : list byte) (pt ib : Z) :
  ib < 0 \/ 255 < ib -> _build F pt ib = Raise ValueError.
Proof.
  intros H.
  destruct (Z_lt_dec pt 0) as [Hlo|Hlo];
    [apply build_bad_padding_type; lia|].
  destruct (Z_lt_dec 255 pt) as [Hhi|Hhi];
    [apply build_bad_padding_type; lia|].
  destruct (byte_of_int_ok pt) as (bp & Hbp & _); [lia|].
  unfold _build, Py.bytes. cbn [mapM].
  change (Py.byte_of_int 0) with (Ok x00).
  rewrite Hbp, (byte_of_int_raises ib H).
  cbn [bind].
  destruct (pt =? 1); reflexivity.
Qed.

(** Every block that [__init__] returns is one of the two layouts. *)
Lemma init_inv (F : list byte) (pt : Z) (ov : option Z) (blk : SignatureBlock.t) :
  __init__ F pt ov = Ok blk ->
  exists ptype skip,
    Py.byte_of_int pt = Ok ptype /\
    Py.byte_of_int (skip_of ov) = Ok skip /\
    blk = (if pt =? 0x01 then padded_block F (skip_of ov) skip
           else unpadded_block F pt (skip_of ov) ptype skip).
Proof.
  unfold __init__. fold (skip_of ov). set (ib := skip_of ov).
  intros H.
  destruct (Z_lt_dec pt 0) as [Hlo|Hlo];
    [rewrite build_bad_padding_type in H by lia; discriminate|].
  destruct (Z_lt_dec 255 pt) as [Hhi|Hhi];
    [rewrite build_bad_padding_type in H by lia; discriminate|].
  destruct (Z_lt_dec ib 0) as [Hilo|Hilo];
    [rewrite build_bad_skip in H by lia; discriminate|].
  destruct (Z_lt_dec 255 ib) as [Hihi|Hihi];
    [rewrite build_bad_skip in H by lia; discriminate|].
  destruct (byte_of_int_ok pt) as (ptype & Hpt & _); [lia|].
  destruct (byte_of_int_ok ib) as (skip & Hskip & _); [lia|].
  exists ptype, skip. split; [exact Hpt|]. split; [exact Hskip|].
  destruct (Z.eq_dec pt 1) as [->|Hne].
  - rewrite (build_padded F ib skip Hskip) in H. injection H as <-.
    reflexivity.
  - rewrite (build_unpadded F pt ib ptype skip Hne Hpt Hskip) in H.
    injection H as <-.
    apply Z.eqb_neq in Hne. rewrite Hne. reflexivity.
Qed.

(** The constructor succeeds on bytes. *)
Lemma init_total (F : list byte) (pt : Z) (ov : option Z) :
  0 <= pt <= 255 -> 0 <= skip_of ov <= 255 ->
  exists blk, __init__ F pt ov = Ok blk.
Proof.
  intros Hpt Hov. unfold __init__. fold (skip_of ov).
  destruct (byte_of_int_ok pt Hpt) as (ptype & Hp & _).
  destruct (byte_of_int_ok _ Hov) as (skip & Hs & _).
  destruct (Z.eq_dec pt 1) as [->|Hne].
  - rewrite (build_padded F _ skip Hs). eexists; reflexivity.
  - rewrite (build_unpadded F pt _ ptype skip Hne Hp Hs). eexists; reflexivity.
Qed.

Lemma init_offsets (F : list byte) (pt : Z) (ov : option Z)
      (blk : SignatureBlock.t) :
  __init__ F pt ov = Ok blk ->
  offsets blk = if pt =? 0x01 then padded_offsets else unpadded_offsets.
Proof.
  intros H. apply init_inv in H. destruct H as (ptype & skip & _ & _ & ->).
  destruct (pt =? 1); reflexivity.
Qed.

Lemma init_raw_length (F : list byte) (pt : Z) (ov : option Z)
      (blk : SignatureBlock.t) :
  __init__ F pt ov = Ok blk ->
  Py.len (raw blk) = if pt =? 0x01 then 127 else 54.
Proof.
  intros H. apply init_inv in H. destruct H as (ptype & skip & _ & _ & ->).
  unfold Py.len.
  destruct (pt =? 1); cbn [raw padded_block unpadded_block].
  - rewrite padded_raw_length by apply digest_length. reflexivity.
  - rewrite unpadded_raw_length by apply digest_length. reflexivity.
Qed.

(** What [forge_sighax] returns, written out. *)
Lemma forge_sighax_eq (F : list byte) :
  forge_sighax F = Ok (forged_block F, forged_info F).
Proof.
  unfold forge_sighax, __init__.
  rewrite (build_unpadded F 2 13 x02 x0d) by (reflexivity || discriminate).
  cbn [bind off_correct_hash off_inner_start unpadded_block].
  change (22 - 7) with 15.
  rewrite (build_unpadded F 2 15 x02 x0f) by (reflexivity || discriminate).
  reflexivity.
Qed.

(* ================================================================== *)
(** * The block builder *)

(** ** The length of [raw] *)

(** The padded block is one byte short of [TOTAL_BLOCK_SIZE]: the
    separator is counted twice when the padding length is computed. *)
Example padded_raw_is_127 :
  exists blk,
    __init__ demo_firmware PADDING_TYPE_PADDED None = Ok blk /\
    Py.len (raw blk) = 127.
Proof.
  destruct (init_total demo_firmware PADDING_TYPE_PADDED None) as [blk E];
    [unfold PADDING_TYPE_PADDED; lia | unfold skip_of, INNER_BLOCK_REAL_LEN; lia |].
  exists blk. split; [exact E|].
  rewrite (init_raw_length _ _ _ _ E). reflexivity.
Qed.

(** C4, as stated, fails: the unpadded block of the demonstration
    firmware has 54 bytes, not 128. *)
Lemma raw_length_not_128 :
  exists blk,
    __init__ demo_firmware PADDING_TYPE_UNPADDED None = Ok blk /\
    Py.len (raw blk) = 54 /\
    Py.len (raw blk) <> TOTAL_BLOCK_SIZE.
Proof.
  destruct (init_total demo_firmware PADDING_TYPE_UNPADDED None) as [blk E];
    [unfold PADDING_TYPE_UNPADDED; lia | unfold skip_of, INNER_BLOCK_REAL_LEN; lia |].
  exists blk. split; [exact E|].
  rewrite (init_raw_length _ _ _ _ E).
  split; [reflexivity | discriminate].
Qed.

(** C4 (amended): for every firmware, both padding types and every
    override that is a byte (or none), the constructor returns a block
    whose [raw] is never longer than [TOTAL_BLOCK_SIZE = 128]: the final
    slice only truncates, it never pads.  An unpadded block has exactly
    54 bytes. *)
Theorem raw_length_at_most_128
        (F : list byte) (pt : Z) (ov : option Z)
        (Hpt : pt = PADDING_TYPE_PADDED \/ pt = PADDING_TYPE_UNPADDED)
        (Hov : 0 <= skip_of ov <= 255) :
  exists blk,
    __init__ F pt ov = Ok blk /\
    Py.len (raw blk) <= TOTAL_BLOCK_SIZE /\
    (pt = PADDING_TYPE_UNPADDED -> Py.len (raw blk) = 54).
Proof.
  destruct (init_total F pt ov) as [blk E]; [|exact Hov|].
  { unfold PADDING_TYPE_PADDED, PADDING_TYPE_UNPADDED in Hpt. lia. }
  exists blk. split; [exact E|].
  rewrite (init_raw_length _ _ _ _ E).
  unfold TOTAL_BLOCK_SIZE, PADDING_TYPE_UNPADDED.
  split.
  - destruct (pt =? 1); lia.
  - intros ->. reflexivity.
Qed.

Lemma raw_length_at_most_128_witness :
  exists blk,
    __init__ demo_firmware PADDING_TYPE_UNPADDED (Some 15) = Ok blk /\
    Py.len (raw blk) <= TOTAL_BLOCK_SIZE /\
    Py.len (raw blk) = 54.
Proof.
  destruct (raw_length_at_most_128 demo_firmware PADDING_TYPE_UNPADDED (Some 15))
    as (blk & E & Hle & H54).
  - right. reflexivity.
  - unfold skip_of. lia.
  - exists blk. split; [exact E|]. split; [exact Hle|].
    apply H54. reflexivity.
Defined.

(** ** Padding types outside the enumeration *)

(** C7, as stated, fails: the padding type 0x03 is not in the
    enumeration, yet the constructor returns a block, laid out as an
    unpadded one. *)
Lemma padding_type_3_accepted :
  exists blk,
    __init__ demo_firmware 0x03 None = Ok blk /\
    offsets blk = unpadded_offsets /\
    Py.len (raw blk) = 54.
Proof.
  destruct (init_total demo_firmware 3 None) as [blk E];
    [lia | unfold skip_of, INNER_BLOCK_REAL_LEN; lia |].
  exists blk. split; [exact E|].
  rewrite (init_raw_length _ _ _ _ E), (init_offsets _ _ _ _ E).
  split; reflexivity.
Qed.

(** C7 (amended): a padding type that is not a byte makes the
    constructor raise [ValueError]; a padding type that is a byte other
    than 0x01 is accepted, whether it is in the enumeration or not, and
    laid out without padding. *)
Theorem padding_type_outside_enum
        (F : list byte) (pt : Z) (ov : option Z)
        (Hne1 : pt <> PADDING_TYPE_PADDED)
        (Hne2 : pt <> PADDING_TYPE_UNPADDED)
        (Hov : 0 <= skip_of ov <= 255) :
  (pt < 0 \/ 255 < pt -> __init__ F pt ov = Raise ValueError) /\
  (0 <= pt <= 255 ->
   exists blk, __init__ F pt ov = Ok blk /\
               offsets blk = unpadded_offsets /\
               Py.len (raw blk) = 54).
Proof.
  split.
  - intros H. unfold __init__. apply build_bad_padding_type. exact H.
  - intros H. destruct (init_total F pt ov H Hov) as [blk E].
    exists blk. split; [exact E|].
    rewrite (init_raw_length _ _ _ _ E), (init_offsets _ _ _ _ E).
    unfold PADDING_TYPE_PADDED in Hne1. apply Z.eqb_neq in Hne1.
    rewrite Hne1. split; reflexivity.
Qed.

Lemma padding_type_outside_enum_witness :
  __init__ demo_firmware 256 None = Raise ValueError /\
  exists blk, __init__ demo_firmware 0x03 None = Ok blk /\
              offsets blk = unpadded_offsets /\
              Py.len (raw blk) = 54.
Proof.
  split.
  - apply (padding_type_outside_enum demo_firmware 256 None);
      unfold PADDING_TYPE_PADDED, PADDING_TYPE_UNPADDED, skip_of,
        INNER_BLOCK_REAL_LEN; lia.
  - apply (padding_type_outside_enum demo_firmware 3 None);
      unfold PADDING_TYPE_PADDED, PADDING_TYPE_UNPADDED, skip_of,
        INNER_BLOCK_REAL_LEN; lia.
Defined.

(** ** The offsets depend on the padding type alone *)

(** C9: two blocks built with the same padding type record the same
    fifteen offsets, whatever their firmware and their override; so do
    the probe block and the forged block of [forge_sighax]. *)
Theorem offsets_depend_on_padding_type_only
        (F1 F2 : list byte) (pt : Z) (ov1 ov2 : option Z)
        (b1 b2 : SignatureBlock.t)
        (H1 : __init__ F1 pt ov1 = Ok b1)
        (H2 : __init__ F2 pt ov2 = Ok b2) :
  offsets b1 = offsets b2 /\
  forall F : list byte,
  exists probe forged info,
    __init__ F PADDING_TYPE_UNPADDED (Some 13) = Ok probe /\
    forge_sighax F = Ok (forged, info) /\
    offsets probe = offsets forged.
Proof.
  split.
  - rewrite (init_offsets _ _ _ _ H1), (init_offsets _ _ _ _ H2). reflexivity.
  - intros F. rewrite forge_sighax_eq.
    unfold __init__, PADDING_TYPE_UNPADDED.
    rewrite (build_unpadded F 2 13 x02 x0d) by (reflexivity || discriminate).
    do 3 eexists. repeat split.
Qed.

Lemma offsets_depend_on_padding_type_only_witness :
  __init__ demo_firmware PADDING_TYPE_PADDED None
    = Ok (padded_block demo_firmware 13 x0d) /\
  __init__ [] PADDING_TYPE_PADDED (Some 200) = Ok (padded_block [] 200 xc8) /\
  offsets (padded_block demo_firmware 13 x0d) = offsets (padded_block [] 200 xc8).
Proof.
  assert (E1 : __init__ demo_firmware PADDING_TYPE_PADDED None
               = Ok (padded_block demo_firmware 13 x0d))
    by (vm_compute; reflexivity).
  assert (E2 : __init__ [] PADDING_TYPE_PADDED (Some 200)
               = Ok (padded_block [] 200 xc8))
    by (vm_compute; reflexivity).
  split; [exact E1|]. split; [exact E2|].
  exact (proj1 (offsets_depend_on_padding_type_only _ _ _ _ _ _ _ E1 E2)).
Defined.

(** ** What an override changes *)

(** Both layouts are a lead, the skip byte, and a rest; [off_0d] is the
    length of the lead. *)
Lemma init_split (F : list byte) (pt : Z) (ov : option Z)
      (blk : SignatureBlock.t) :
  __init__ F pt ov = Ok blk ->
  exists lead skip,
    Py.byte_of_int (skip_of ov) = Ok skip /\
    raw blk = lead ++ skip :: after_skip (SHA256.digest F) /\
    off_0d blk = Py.len lead /\
    (forall ptype, Py.byte_of_int pt = Ok ptype ->
       lead = if pt =? 0x01 then padded_lead else unpadded_lead ptype).
Proof.
  intros H. apply init_inv in H.
  destruct H as (ptype & skip & Hp & Hs & ->).
  destruct (pt =? 1).
  - exists padded_lead, skip. repeat split; try assumption.
  - exists (unpadded_lead ptype), skip. repeat split; try assumption.
    intros ptype' Hp'. rewrite Hp in Hp'. injection Hp' as <-. reflexivity.
Qed.

(** C10, as stated, fails: an override equal to the default 13, which
    is what [forge_sighax] passes for its probe block, changes no byte
    at all. *)
Lemma override_13_changes_nothing :
  exists b_ov b_def,
    __init__ demo_firmware PADDING_TYPE_UNPADDED (Some 13) = Ok b_ov /\
    __init__ demo_firmware PADDING_TYPE_UNPADDED None = Ok b_def /\
    raw b_ov = raw b_def /\
    changed_positions (raw b_def) (raw b_ov) = [].
Proof.
  unfold __init__, PADDING_TYPE_UNPADDED, INNER_BLOCK_REAL_LEN.
  rewrite (build_unpadded demo_firmware 2 13 x02 x0d)
    by (reflexivity || discriminate).
  do 2 eexists. split; [reflexivity|]. split; [reflexivity|].
  split; [reflexivity|]. apply diff_from_same.
Qed.

(** C10 (amended): for every firmware and padding type, a block built
    with an override and the block built with the default skip 13 record
    the same offsets and hold the same bytes everywhere but at [off_0d],
    where the first holds the override and the second 13.  So the
    override changes at most one byte: the one at [off_0d] when it is
    not 13, none when it is 13. *)
Theorem override_changes_only_off_0d
        (F : list byte) (pt ov : Z) (b_ov b_def : SignatureBlock.t)
        (H1 : __init__ F pt (Some ov) = Ok b_ov)
        (H2 : __init__ F pt None = Ok b_def) :
  offsets b_ov = offsets b_def /\
  Py.len (raw b_ov) = Py.len (raw b_def) /\
  (forall i, 0 <= i -> i <> off_0d b_def ->
             Py.getitem (raw b_ov) i = Py.getitem (raw b_def) i) /\
  Py.getitem (raw b_def) (off_0d b_def) = Py.byte_of_int 13 /\
  Py.getitem (raw b_ov) (off_0d b_ov) = Py.byte_of_int ov /\
  changed_positions (raw b_def) (raw b_ov) =
    (if ov =? 13 then [] else [off_0d b_def]).
Proof.
  assert (Hoff : offsets b_ov = offsets b_def)
    by (rewrite (init_offsets _ _ _ _ H1), (init_offsets _ _ _ _ H2); reflexivity).
  assert (Hlen : Py.len (raw b_ov) = Py.len (raw b_def))
    by (rewrite (init_raw_length _ _ _ _ H1), (init_raw_length _ _ _ _ H2);
        reflexivity).
  pose proof (init_inv _ _ _ _ H1) as (ptype & _ & Hptype & _ & _).
  apply init_split in H1. apply init_split in H2.
  destruct H1 as (lead1 & s1 & Hs1 & Hr1 & Ho1 & Hl1).
  destruct H2 as (lead2 & s2 & Hs2 & Hr2 & Ho2 & Hl2).
  specialize (Hl1 ptype Hptype). specialize (Hl2 ptype Hptype).
  assert (lead1 = lead2) as -> by (rewrite Hl1, Hl2; reflexivity).
  clear Hl1 Hl2.
  cbn [skip_of] in Hs1, Hs2.
  split; [exact Hoff|]. split; [exact Hlen|].
  rewrite Hr1, Hr2, Ho1, Ho2.
  split; [|split; [|split]].
  - intros i Hi Hne. rewrite !getitem_nonneg by exact Hi.
    rewrite (nth_error_one_place lead2 _ s1 s2); [reflexivity|].
    unfold Py.len in Hne. lia.
  - rewrite getitem_app_here. symmetry. exact Hs2.
  - rewrite getitem_app_here. symmetry. exact Hs1.
  - unfold changed_positions. rewrite diff_from_one_place.
    rewrite Z.add_0_l.
    apply byte_of_int_inv in Hs1. apply byte_of_int_inv in Hs2.
    unfold INNER_BLOCK_REAL_LEN in Hs2.
    destruct (Z.eqb_spec ov 13) as [->|Hne].
    + assert (s2 = s1) as ->.
      { apply int_of_byte_inj.
        destruct Hs1 as [_ Hs1], Hs2 as [_ Hs2]. congruence. }
      rewrite byte_eqb_refl. reflexivity.
    + rewrite byte_eqb_neq; [reflexivity|].
      intros ->. destruct Hs1 as [_ Hs1], Hs2 as [_ Hs2]. congruence.
Qed.

Lemma override_changes_only_off_0d_witness :
  __init__ demo_firmware PADDING_TYPE_PADDED (Some 200)
    = Ok (padded_block demo_firmware 200 xc8) /\
  __init__ demo_firmware PADDING_TYPE_PADDED None
    = Ok (padded_block demo_firmware 13 x0d) /\
  offsets (padded_block demo_firmware 200 xc8)
    = offsets (padded_block demo_firmware 13 x0d) /\
  changed_positions (raw (padded_block demo_firmware 13 x0d))
                    (raw (padded_block demo_firmware 200 xc8)) = [79].
Proof.
  assert (E1 : __init__ demo_firmware PADDING_TYPE_PADDED (Some 200)
               = Ok (padded_block demo_firmware 200 xc8))
    by (vm_compute; reflexivity).
  assert (E2 : __init__ demo_firmware PADDING_TYPE_PADDED None
               = Ok (padded_block demo_firmware 13 x0d))
    by (vm_compute; reflexivity).
  split; [exact E1|]. split; [exact E2|].
  destruct (override_changes_only_off_0d _ _ _ _ _ E1 E2)
    as (Hoff & _ & _ & _ & _ & Hch).
  split; [exact Hoff | exact Hch].
Defined.

(* ================================================================== *)
(** * Forging *)

(** C3: the skip that [forge_sighax] stores as [forged_0d] is
    [off_correct_hash - off_inner_start] of any block built without
    padding, and it is the same for any two firmware images. *)
Theorem needed_skip_is_structural
        (F1 F2 F' : list byte) (ov' : option Z) (blk' : SignatureBlock.t)
        (H : __init__ F' PADDING_TYPE_UNPADDED ov' = Ok blk') :
  exists b1 i1 b2 i2,
    forge_sighax F1 = Ok (b1, i1) /\
    forge_sighax F2 = Ok (b2, i2) /\
    forged_0d i1 = off_correct_hash blk' - off_inner_start blk' /\
    forged_0d i1 = off_correct_hash b1 - off_inner_start b1 /\
    inner_block_len_byte b1 = forged_0d i1 /\
    Py.getitem (raw b1) (off_0d b1) = Py.byte_of_int (forged_0d i1) /\
    forged_0d i2 = forged_0d i1.
Proof.
  rewrite !forge_sighax_eq. do 4 eexists.
  split; [reflexivity|]. split; [reflexivity|].
  apply init_inv in H. destruct H as (ptype & skip & _ & _ & ->).
  cbn [forged_0d off_correct_hash off_inner_start inner_block_len_byte
       unpadded_block forged_block forged_info raw off_0d
       PADDING_TYPE_UNPADDED Z.eqb Pos.eqb].
  do 3 (split; [reflexivity|]). split; [|reflexivity].
  unfold unpadded_raw.
  change 6 with (Py.len (unpadded_lead x02)).
  rewrite getitem_app_here. reflexivity.
Qed.

Lemma needed_skip_is_structural_witness :
  __init__ (bytes_of_string "abc") PADDING_TYPE_UNPADDED None
    = Ok (unpadded_block (bytes_of_string "abc") 2 13 x02 x0d) /\
  exists b1 i1 b2 i2,
    forge_sighax demo_firmware = Ok (b1, i1) /\
    forge_sighax [] = Ok (b2, i2) /\
    forged_0d i1 = 22 - 7 /\
    forged_0d i2 = forged_0d i1.
Proof.
  assert (E : __init__ (bytes_of_string "abc") PADDING_TYPE_UNPADDED None
              = Ok (unpadded_block (bytes_of_string "abc") 2 13 x02 x0d))
    by (vm_compute; reflexivity).
  split; [exact E|].
  destruct (needed_skip_is_structural demo_firmware [] _ _ _ E)
    as (b1 & i1 & b2 & i2 & E1 & E2 & Hskip & _ & _ & _ & Heq).
  exists b1, i1, b2, i2. split; [exact E1|]. split; [exact E2|].
  split; [exact Hskip | exact Heq].
Defined.


(* ================================================================== *)
(** * The traces *)

Lemma padded_raw_fixed (skip : byte) (h : list byte) :
  padded_raw skip h = padded_fixed skip ++ h.
Proof. reflexivity. Qed.

Lemma unpadded_raw_fixed (ptype skip : byte) (h : list byte) :
  unpadded_raw ptype skip h = unpadded_fixed ptype skip ++ h.
Proof. reflexivity. Qed.

Lemma fmt_02X_length (b : byte) : String.length (Py.fmt_02X b) = 2%nat.
Proof. reflexivity. Qed.

Lemma fmt_02X_upper_hex (b : byte) : upper_hex_string (Py.fmt_02X b) = true.
Proof. destruct b; reflexivity. Qed.

Lemma string_length_append (s t : string) :
  String.length (s +++ t) = (String.length s + String.length t)%nat.
Proof.
  induction s as [|c s IH]; [reflexivity|].
  cbn [String.append String.length]. rewrite IH. reflexivity.
Qed.

Lemma upper_hex_string_append (s t : string) :
  upper_hex_string (s +++ t) = upper_hex_string s && upper_hex_string t.
Proof.
  induction s as [|c s IH]; [reflexivity|].
  cbn [String.append upper_hex_string]. rewrite IH, andb_assoc. reflexivity.
Qed.

Lemma hex_upper_length (l : list byte) :
  String.length (Py.hex_upper l) = (2 * List.length l)%nat.
Proof.
  induction l as [|b l IH]; [reflexivity|].
  cbn [Py.hex_upper]. rewrite string_length_append, fmt_02X_length, IH.
  cbn [List.length]. lia.
Qed.

Lemma hex_upper_upper_hex (l : list byte) :
  upper_hex_string (Py.hex_upper l) = true.
Proof.
  induction l as [|b l IH]; [reflexivity|].
  cbn [Py.hex_upper]. rewrite upper_hex_string_append, fmt_02X_upper_hex, IH.
  reflexivity.
Qed.

(** ** The legitimate trace *)

(** C2: for every firmware, [bootrom_verify_correct] returns ten steps,
    numbered 0 to 9, none of them fatal; the last has the tag of the
    verdict VERIFIED, and its values hold under "correct_hash" and
    "calculated_hash" the same string of 64 upper-case hexadecimal
    digits. *)
Theorem legitimate_trace_verifies (F : list byte) :
  exists steps final h,
    bootrom_verify_correct F = Ok steps /\
    List.length steps = 10%nat /\
    map id steps = [0; 1; 2; 3; 4; 5; 6; 7; 8; 9] /\
    forallb (fun s => negb (is_fatal s)) steps = true /\
    nth_error steps 9 = Some final /\
    tag final = "VERIFIED ✓" /\
    verdict_of_tag (tag final) = Some VERIFIED /\
    Py.dict_get String.eqb (vals final) "correct_hash" = Some h /\
    Py.dict_get String.eqb (vals final) "calculated_hash" = Some h /\
    h = Py.hex_upper (SHA256.digest F) /\
    String.length h = 64%nat /\
    upper_hex_string h = true.
Proof.
  unfold bootrom_verify_correct, __init__, INNER_BLOCK_REAL_LEN.
  rewrite (build_padded F 13 x0d) by reflexivity.
  cbn [bind]. unfold verify_correct_steps.
  cbn [raw off_byte0 off_byte1 off_padding_start off_separator off_30_1 off_31
       off_30_2 off_0d off_inner_start off_inner_end off_04 off_20
       off_correct_hash padded_block].
  assert (Hlen : Py.len (padded_raw x0d (SHA256.digest F)) = 127).
  { unfold Py.len. rewrite padded_raw_length by apply digest_length. reflexivity. }
  rewrite !Hlen. clear Hlen.
  rewrite !padded_raw_fixed.
  rewrite !getitem_app_lead by closed_bounds.
  rewrite !slice_app_lead by closed_bounds.
  rewrite !(slice_app_rest_at (padded_fixed x0d) (SHA256.digest F))
    by (reflexivity || (unfold Py.len; rewrite digest_length; reflexivity)).
  rewrite !bytes_eqb_refl.
  pose proof (digest_length F) as Hd.
  remember (SHA256.digest F) as d eqn:Ed.
  evaluate_reads.
  do 3 eexists.
  split; [reflexivity|].
  split; [reflexivity|].
  split; [reflexivity|].
  split; [reflexivity|].
  split; [reflexivity|].
  split; [reflexivity|].
  split; [reflexivity|].
  split; [reflexivity|].
  split; [reflexivity|].
  split; [reflexivity|].
  cbn [snd]. split.
  - rewrite hex_upper_length, Hd. reflexivity.
  - apply hex_upper_upper_hex.
Qed.

(** A block whose first byte is not 0x00 stops the trace at the first
    check: the two introductory steps and the failed check. *)
Lemma byte0_mismatch_trace (blk : SignatureBlock.t) (F : list byte) (b : byte) :
  Py.getitem (raw blk) (off_byte0 blk) = Ok b ->
  b <> x00 ->
  exists s0 s1 s2,
    verify_correct_steps blk F = Ok [s0; s1; s2] /\
    map id [s0; s1; s2] = [0; 1; 2] /\
    map tag [s0; s1; s2] = ["INFO"; "INFO"; "FAIL"] /\
    map is_fatal [s0; s1; s2] = [false; false; true] /\
    fatal s2 = Some true /\
    ok s2 = false /\
    pointer_at s2 = Some (off_byte0 blk).
Proof.
  intros Hget Hb. unfold verify_correct_steps.
  rewrite Hget. cbn [bind].
  rewrite (byte_eqb_neq b x00 Hb). cbn [negb app].
  do 3 eexists. split; [reflexivity|].
  repeat split.
Qed.

(** C6, as stated, fails: with byte 0 of the legitimate block of the
    demonstration firmware overwritten by 0x01, the trace has three
    steps, not one. *)
Lemma corrupted_byte0_gives_three_steps :
  exists blk steps,
    __init__ demo_firmware PADDING_TYPE_PADDED None = Ok blk /\
    verify_correct_steps (with_raw blk (x01 :: tl (raw blk))) demo_firmware
      = Ok steps /\
    List.length steps = 3%nat /\
    List.length steps <> 1%nat /\
    map tag steps = ["INFO"; "INFO"; "FAIL"].
Proof.
  unfold __init__, PADDING_TYPE_PADDED, INNER_BLOCK_REAL_LEN.
  rewrite (build_padded demo_firmware 13 x0d) by reflexivity.
  destruct (byte0_mismatch_trace
              (with_raw (padded_block demo_firmware 13 x0d)
                        (x01 :: tl (raw (padded_block demo_firmware 13 x0d))))
              demo_firmware x01)
    as (s0 & s1 & s2 & E & _ & Htags & _); [reflexivity | discriminate |].
  exists (padded_block demo_firmware 13 x0d), [s0; s1; s2].
  split; [reflexivity|]. split; [exact E|].
  split; [reflexivity|]. split; [discriminate | exact Htags].
Qed.

(** C6 (amended): whatever the firmware, when byte 0 of the block the
    legitimate trace reads is not 0x00 the trace stops at that check,
    which is its third step (number 2, after the two introductory
    steps): that step has verdict FAIL and is fatal, and the trace has
    exactly three steps. *)
Theorem byte0_mismatch_stops_trace
        (blk : SignatureBlock.t) (F : list byte) (b : byte)
        (Hget : Py.getitem (raw blk) (off_byte0 blk) = Ok b)
        (Hb : b <> x00) :
  exists steps final,
    verify_correct_steps blk F = Ok steps /\
    List.length steps = 3%nat /\
    map is_fatal steps = [false; false; true] /\
    nth_error steps 2 = Some final /\
    id final = 2 /\
    tag final = "FAIL" /\
    verdict_of_tag (tag final) = Some FAIL /\
    fatal final = Some true.
Proof.
  destruct (byte0_mismatch_trace blk F b Hget Hb)
    as (s0 & s1 & s2 & E & Hid & Htag & Hfat & Hf & _).
  exists [s0; s1; s2], s2.
  injection Hid as _ _ Hid2. injection Htag as _ _ Htag2.
  split; [exact E|]. split; [reflexivity|]. split; [exact Hfat|].
  split; [reflexivity|]. split; [exact Hid2|]. split; [exact Htag2|].
  rewrite Htag2. split; [reflexivity | exact Hf].
Qed.

Lemma byte0_mismatch_stops_trace_witness :
  exists steps final,
    verify_correct_steps
      (with_raw (padded_block demo_firmware 13 x0d)
                (xff :: tl (raw (padded_block demo_firmware 13 x0d))))
      demo_firmware = Ok steps /\
    List.length steps = 3%nat /\
    nth_error steps 2 = Some final /\
    tag final = "FAIL" /\
    fatal final = Some true.
Proof.
  destruct (byte0_mismatch_stops_trace
              (with_raw (padded_block demo_firmware 13 x0d)
                        (xff :: tl (raw (padded_block demo_firmware 13 x0d))))
              demo_firmware xff)
    as (steps & final & E & Hlen & _ & Hnth & _ & Htag & _ & Hfat).
  - reflexivity.
  - discriminate.
  - exists steps, final. repeat split; assumption.
Defined.

(** ** The adversarial trace *)

(** The two traces of the demonstration, and the forged trace of the
    empty firmware, evaluated. *)
Example demo_legitimate_tags :
  match bootrom_verify_correct demo_firmware with
  | Ok steps =>
      map tag steps = ["INFO"; "INFO"; "PASS"; "PASS"; "PASS"; "PASS"; "PASS";
                       "INFO"; "INFO"; "VERIFIED ✓"]
  | Raise _ => False
  end.
Proof. vm_compute. reflexivity. Qed.

Example demo_forged_tags :
  match forgeAndTraceExploit demo_firmware with
  | Ok (blk, steps) =>
      map tag steps = ["INFO"; "EXPLOIT"; "VULN"; "INFO"; "VULN"; "EXPLOIT";
                       "EXPLOIT"; "PWNED"] /\
      Py.len (raw blk) = 54
  | Raise _ => False
  end.
Proof. vm_compute. split; reflexivity. Qed.

Example empty_forged_tags :
  match forgeAndTraceExploit [] with
  | Ok (blk, steps) =>
      map tag steps = ["INFO"; "EXPLOIT"; "VULN"; "INFO"; "VULN"; "EXPLOIT";
                       "EXPLOIT"; "PWNED"]
  | Raise _ => False
  end.
Proof. vm_compute. reflexivity. Qed.

(** The trace of the forged block, evaluated. *)
Lemma forged_trace_facts (F : list byte) :
  exists blk info steps final written,
    forge_sighax F = Ok (blk, info) /\
    bootrom_verify_vulnerable blk F info = Ok steps /\
    List.length steps = 8%nat /\
    map id steps = [0; 1; 2; 3; 4; 5; 6; 7] /\
    map tag steps =
      ["INFO"; "EXPLOIT"; "VULN"; "INFO"; "VULN"; "EXPLOIT"; "EXPLOIT"; "PWNED"] /\
    map fatal steps = repeat None 8 /\
    forallb (fun s => negb (is_fatal s)) steps = true /\
    forallb (fun s => negb (String.eqb (tag s) "FAIL")) steps = true /\
    nth_error steps 7 = Some final /\
    tag final = "PWNED" /\
    nth_error steps 6 = Some written /\
    Py.dict_get String.eqb (vals written) "Escrito en offset"
      = Some (Py.str (skip_lands_at info + HASH_LEN) +++ " (fuera del bloque)") /\
    pointer_lands_of steps = Some (skip_lands_at info).
Proof.
  rewrite forge_sighax_eq. exists (forged_block F), (forged_info F).
  unfold bootrom_verify_vulnerable.
  cbn [raw off_byte0 off_byte1 off_separator off_30_1 off_31 off_30_2 off_0d
       off_inner_start unpadded_block forged_block forged_info
       evil_hash skip_lands_at].
  assert (Hlen : Py.len (unpadded_raw x02 x0f (SHA256.digest F)) = 54).
  { unfold Py.len. rewrite unpadded_raw_length by apply digest_length. reflexivity. }
  rewrite !Hlen. clear Hlen.
  rewrite !unpadded_raw_fixed.
  rewrite !getitem_app_lead by closed_bounds.
  rewrite !(slice_app_rest_at (unpadded_fixed x02 x0f) (SHA256.digest F))
    by (reflexivity || (unfold Py.len; rewrite digest_length; reflexivity)).
  remember (SHA256.digest F) as d eqn:Ed.
  evaluate_reads.
  do 3 eexists.
  split; [reflexivity|].
  split; [reflexivity|].
  repeat split.
Qed.

(** C1: for every evil firmware, forging and then replaying the forged
    block returns eight steps; no step is fatal and none has the tag
    FAIL; the last step has the tag of the verdict COMPROMISED. *)
Theorem forged_trace_is_accepted (F : list byte) :
  exists blk steps final,
    forgeAndTraceExploit F = Ok (blk, steps) /\
    List.length steps = 8%nat /\
    forallb (fun s => negb (is_fatal s)) steps = true /\
    forallb (fun s => negb (String.eqb (tag s) "FAIL")) steps = true /\
    nth_error steps 7 = Some final /\
    tag final = "PWNED" /\
    verdict_of_tag (tag final) = Some COMPROMISED.
Proof.
  destruct (forged_trace_facts F)
    as (blk & info & steps & final & written & Ef & Et & Hlen & _ & _ & _
        & Hnf & Hnfail & Hlast & Htag & _).
  exists blk, steps, final.
  unfold forgeAndTraceExploit. rewrite Ef. cbn [bind fst snd]. rewrite Et.
  cbn [bind]. rewrite Htag.
  repeat split; assumption.
Qed.

(** C5, as stated, fails: for the demonstration firmware the offset
    [outside] is 54, inside the nominal 128 bytes. *)
Lemma outside_is_below_128 :
  exists blk info,
    forge_sighax demo_firmware = Ok (blk, info) /\
    skip_lands_at info + HASH_LEN = 54 /\
    ~ (TOTAL_BLOCK_SIZE <= skip_lands_at info + HASH_LEN).
Proof.
  rewrite forge_sighax_eq. do 2 eexists.
  split; [reflexivity|]. cbn [skip_lands_at forged_info].
  split; [reflexivity|]. unfold TOTAL_BLOCK_SIZE, HASH_LEN. lia.
Qed.

(** C5 (amended): for every evil firmware the cursor lands at
    [off_inner_start + needed_skip], which is [off_correct_hash] of the
    forged block, and [outside = lands_at + 32] is [off_calc_hash], the
    length of the forged block's own 54 bytes: the first offset past the
    bytes of the forged block, where indexing [raw] raises, and below
    the nominal block size 128.  The trace reports these two offsets. *)
Theorem outside_is_just_past_forged_block (F : list byte) :
  exists blk info,
    forge_sighax F = Ok (blk, info) /\
    skip_lands_at info = off_inner_start blk + forged_0d info /\
    skip_lands_at info = off_correct_hash blk /\
    skip_lands_at info + HASH_LEN = off_calc_hash blk /\
    skip_lands_at info + HASH_LEN = 54 /\
    skip_lands_at info + HASH_LEN = Py.len (raw blk) /\
    Py.getitem (raw blk) (skip_lands_at info + HASH_LEN) = Raise IndexError /\
    skip_lands_at info + HASH_LEN < TOTAL_BLOCK_SIZE /\
    exists steps written,
      bootrom_verify_vulnerable blk F info = Ok steps /\
      pointer_lands_of steps = Some (skip_lands_at info) /\
      nth_error steps 6 = Some written /\
      Py.dict_get String.eqb (vals written) "Escrito en offset"
        = Some (Py.str (skip_lands_at info + HASH_LEN) +++ " (fuera del bloque)").
Proof.
  destruct (forged_trace_facts F)
    as (blk & info & steps & final & written & Ef & Et & _ & _ & _ & _ & _ & _
        & _ & _ & Hw & Hd & Hp).
  exists blk, info. split; [exact Ef|].
  rewrite forge_sighax_eq in Ef. injection Ef as <- <-.
  cbn [skip_lands_at off_inner_start forged_0d off_correct_hash off_calc_hash
       unpadded_block forged_block forged_info raw].
  assert (Hlen : Py.len (unpadded_raw x02 x0f (SHA256.digest F)) = 54).
  { unfold Py.len. rewrite unpadded_raw_length by apply digest_length.
    reflexivity. }
  do 4 (split; [reflexivity|]).
  split; [symmetry; exact Hlen|].
  split; [unfold Py.getitem; rewrite Hlen; reflexivity|].
  split; [reflexivity|].
  exists steps, written. repeat split; assumption.
Qed.

(* ================================================================== *)
(** * The hex dump *)

Example reparse_demo_dump :
  match hex_dump demo_firmware 16 with
  | Ok dump => reparse_hex_columns 16 dump = demo_firmware
  | Raise _ => False
  end.
Proof. vm_compute. reflexivity. Qed.

(** ** Strings as lists of characters *)

Lemma chars_append (s t : string) :
  list_ascii_of_string (s +++ t) =
  list_ascii_of_string s ++ list_ascii_of_string t.
Proof.
  induction s as [|c s IH]; [reflexivity|].
  cbn [String.append list_ascii_of_string app]. rewrite IH. reflexivity.
Qed.

Lemma chars_str_repeat (c : ascii) (n : nat) :
  list_ascii_of_string (Py.str_repeat c n) = repeat c n.
Proof.
  induction n as [|n IH]; [reflexivity|].
  cbn [Py.str_repeat list_ascii_of_string repeat]. rewrite IH. reflexivity.
Qed.

Lemma chars_length (s : string) :
  List.length (list_ascii_of_string s) = String.length s.
Proof.
  induction s as [|c s IH]; [reflexivity|].
  cbn [list_ascii_of_string List.length String.length]. rewrite IH. reflexivity.
Qed.

(** ** Cutting a text into lines *)

Lemma split_lines_one (l : list ascii) :
  forallb not_newline l = true -> split_lines l = [l].
Proof.
  induction l as [|c l IH]; [reflexivity|].
  cbn [forallb split_lines]. intros H. apply andb_prop in H as [Hc Hl].
  unfold not_newline in Hc. apply negb_true_iff in Hc.
  rewrite Hc, (IH Hl). reflexivity.
Qed.

Lemma split_lines_first (l r : list ascii) :
  forallb not_newline l = true ->
  split_lines (l ++ newline :: r) = l :: split_lines r.
Proof.
  induction l as [|c l IH]; intros H.
  - reflexivity.
  - cbn [forallb] in H. apply andb_prop in H as [Hc Hl].
    unfold not_newline in Hc. apply negb_true_iff in Hc.
    cbn [app split_lines]. rewrite Hc, (IH Hl). reflexivity.
Qed.

Lemma split_lines_join (first : string) (others : list string) :
  Forall (fun s => forallb not_newline (list_ascii_of_string s) = true)
         (first :: others) ->
  split_lines (list_ascii_of_string (Py.join nl (first :: others))) =
  map list_ascii_of_string (first :: others).
Proof.
  revert first. induction others as [|second others IH]; intros first H.
  - cbn [Py.join map]. apply split_lines_one.
    inversion H; assumption.
  - inversion H as [|? ? Hfirst Hrest]; subst.
    change (Py.join nl (first :: second :: others))
      with (first +++ nl +++ Py.join nl (second :: others)).
    rewrite !chars_append.
    change (list_ascii_of_string nl) with [newline].
    cbn [app]. rewrite split_lines_first by exact Hfirst.
    rewrite (IH second Hrest). reflexivity.
Qed.

(** ** One line *)

Lemma parse_group (b : byte) (k : nat) (r : list ascii) :
  parse_hex_columns (S k) (group b ++ r) = b :: parse_hex_columns k r.
Proof. destruct b; reflexivity. Qed.

Lemma parse_at_blank (n : nat) (r : list ascii) :
  parse_hex_columns n (blank :: r) = [].
Proof. destruct n as [|n]; [reflexivity|]. destruct r; reflexivity. Qed.

Lemma parse_groups (chunk : list byte) (n : nat) (rest : list ascii) :
  (List.length chunk <= n)%nat ->
  ((List.length chunk < n)%nat -> exists r, rest = blank :: r) ->
  parse_hex_columns n (List.concat (map group chunk) ++ rest) = chunk.
Proof.
  revert n. induction chunk as [|b chunk IH]; intros n Hle Hrest.
  - cbn [map List.concat app]. destruct n as [|n]; [reflexivity|].
    destruct Hrest as [r ->]; [cbn [List.length]; lia|].
    apply parse_at_blank.
  - destruct n as [|n]; [cbn [List.length] in Hle; lia|].
    cbn [map List.concat]. rewrite <- app_assoc, parse_group.
    f_equal. apply IH.
    + cbn [List.length] in Hle. lia.
    + intros Hlt. apply Hrest. cbn [List.length]. lia.
Qed.

Lemma join_groups (b : byte) (chunk : list byte) :
  list_ascii_of_string (Py.join " " (map Py.fmt_02X (b :: chunk))) ++ [blank] =
  List.concat (map group (b :: chunk)).
Proof.
  revert b. induction chunk as [|c chunk IH]; intros b.
  - cbn [map Py.join List.concat]. rewrite app_nil_r. reflexivity.
  - change (Py.join " " (map Py.fmt_02X (b :: c :: chunk)))
      with (Py.fmt_02X b +++ " " +++ Py.join " " (map Py.fmt_02X (c :: chunk))).
    rewrite !chars_append.
    change (list_ascii_of_string " ") with [blank].
    rewrite <- !app_assoc, (IH c).
    change (map group (b :: c :: chunk)) with (group b :: map group (c :: chunk)).
    cbn [List.concat]. unfold group at 2. rewrite <- app_assoc. reflexivity.
Qed.

Lemma groups_length (chunk : list byte) :
  List.length (List.concat (map group chunk)) = (3 * List.length chunk)%nat.
Proof.
  induction chunk as [|b chunk IH]; [reflexivity|].
  cbn [map List.concat]. rewrite length_app, IH.
  change (List.length (group b)) with 3%nat.
  cbn [List.length]. lia.
Qed.

Lemma join_groups_length (chunk : list byte) :
  chunk <> [] ->
  S (String.length (Py.join " " (map Py.fmt_02X chunk))) = (3 * List.length chunk)%nat.
Proof.
  destruct chunk as [|b chunk]; [congruence|]. intros _.
  rewrite <- chars_length, <- groups_length, <- join_groups.
  rewrite length_app. cbn [List.length]. lia.
Qed.

Lemma drop_offset_column_app (off rest : list ascii) :
  forallb not_blank off = true ->
  drop_offset_column (off ++ blank :: blank :: rest) = rest.
Proof.
  induction off as [|c off IH]; intros H.
  - reflexivity.
  - cbn [forallb] in H. apply andb_prop in H as [Hc Hoff].
    unfold not_blank in Hc. apply negb_true_iff in Hc.
    cbn [app drop_offset_column]. rewrite Hc. apply IH. exact Hoff.
Qed.

(** ** The characters of a line *)

Lemma upper_hex_char_plain (c : ascii) :
  upper_hex_char c = true -> not_newline c = true /\ not_blank c = true.
Proof.
  destruct c as [[] [] [] [] [] [] [] []]; intros H;
    (split; reflexivity) || discriminate H.
Qed.

Lemma upper_hex_plain (l : list ascii) :
  forallb upper_hex_char l = true ->
  forallb not_newline l = true /\ forallb not_blank l = true.
Proof.
  induction l as [|c l IH]; [split; reflexivity|].
  cbn [forallb]. intros H. apply andb_prop in H as [Hc Hl].
  destruct (upper_hex_char_plain c Hc) as [-> ->].
  destruct (IH Hl) as [-> ->]. split; reflexivity.
Qed.

Lemma hex_of_uint_upper_hex (d : Hexadecimal.uint) :
  forallb upper_hex_char (list_ascii_of_string (Py.hex_of_uint d)) = true.
Proof.
  induction d; cbn [Py.hex_of_uint list_ascii_of_string forallb];
    rewrite ?IHd; reflexivity.
Qed.

Lemma fmt_04X_upper_hex (i : Z) :
  forallb upper_hex_char (list_ascii_of_string (Py.fmt_04X i)) = true.
Proof.
  unfold Py.fmt_04X. cbv zeta.
  rewrite chars_append, chars_str_repeat, forallb_app, hex_of_uint_upper_hex.
  rewrite andb_true_r.
  generalize (4 - String.length (Py.hex_of_uint (N.to_hex_uint (Z.to_N i))))%nat.
  intros n. induction n as [|n IH]; [reflexivity|].
  cbn [repeat forallb]. rewrite IH. reflexivity.
Qed.

Lemma group_not_newline (b : byte) : forallb not_newline (group b) = true.
Proof. destruct b; reflexivity. Qed.

Lemma groups_not_newline (chunk : list byte) :
  forallb not_newline (List.concat (map group chunk)) = true.
Proof.
  induction chunk as [|b chunk IH]; [reflexivity|].
  cbn [map List.concat]. rewrite forallb_app, group_not_newline, IH. reflexivity.
Qed.

Lemma blanks_not_newline (n : nat) : forallb not_newline (repeat blank n) = true.
Proof.
  induction n as [|n IH]; [reflexivity|].
  cbn [repeat forallb]. rewrite IH. reflexivity.
Qed.

Lemma printable_not_newline (chunk : list byte) :
  forallb not_newline (map Py.printable chunk) = true.
Proof.
  induction chunk as [|b chunk IH]; [reflexivity|].
  cbn [map forallb]. rewrite IH, andb_true_r. destruct b; reflexivity.
Qed.

Lemma hex_dump_line_chars (data : list byte) (i : Z) :
  let chunk := Py.slice data i (i + 16) in
  chunk <> [] -> (List.length chunk <= 16)%nat ->
  list_ascii_of_string (hex_dump_line data 16 i) = line_chars i chunk.
Proof.
  intros chunk Hne Hlen. unfold hex_dump_line, line_chars. fold chunk.
  cbv zeta. unfold Py.ljust.
  rewrite !chars_append, list_ascii_of_string_of_list_ascii, chars_str_repeat.
  change (list_ascii_of_string "  ") with [blank; blank].
  change (Z.to_nat (16 * 3)) with 48%nat.
  pose proof (join_groups_length chunk Hne) as Hj.
  replace (48 - String.length (Py.join " " (map Py.fmt_02X chunk)))%nat
    with (S (48 - 3 * List.length chunk)) by lia.
  cbn [repeat].
  destruct chunk as [|b rest] eqn:E; [congruence|].
  rewrite <- (join_groups b rest).
  cbn [app]. rewrite <- !app_assoc. reflexivity.
Qed.

Lemma line_chars_not_newline (i : Z) (chunk : list byte) :
  forallb not_newline (line_chars i chunk) = true.
Proof.
  unfold line_chars.
  rewrite forallb_app.
  destruct (upper_hex_plain _ (fmt_04X_upper_hex i)) as [-> _].
  cbn [forallb andb].
  rewrite !forallb_app, groups_not_newline, blanks_not_newline.
  cbn [forallb andb]. apply printable_not_newline.
Qed.

Lemma parse_line_chars (i : Z) (chunk : list byte) :
  (List.length chunk <= 16)%nat ->
  parse_dump_line 16 (line_chars i chunk) = chunk.
Proof.
  intros Hlen. unfold parse_dump_line, line_chars.
  rewrite drop_offset_column_app
    by (apply upper_hex_plain, fmt_04X_upper_hex).
  apply parse_groups; [exact Hlen|].
  intros Hlt.
  destruct (48 - 3 * List.length chunk)%nat as [|n] eqn:E; [lia|].
  cbn [repeat app]. eexists. reflexivity.
Qed.

(** ** The chunks *)

Lemma slice_chunk (data : list byte) (k : nat) :
  Py.slice data (0 + Z.of_nat k * 16) (0 + Z.of_nat k * 16 + 16) =
  firstn 16 (skipn (16 * k) data).
Proof.
  unfold Py.slice, Py.clamp, Py.len.
  set (n := List.length data).
  assert (E1 : (0 + Z.of_nat k * 16 <? 0) = false) by (apply Z.ltb_ge; lia).
  assert (E2 : (0 + Z.of_nat k * 16 + 16 <? 0) = false) by (apply Z.ltb_ge; lia).
  rewrite E1, E2.
  destruct (Nat.le_gt_cases (16 * k) n) as [Hle|Hgt].
  - rewrite (Z.min_l (0 + Z.of_nat k * 16)) by lia.
    replace (Z.to_nat (0 + Z.of_nat k * 16)) with (16 * k)%nat by lia.
    destruct (Nat.le_gt_cases (16 * k + 16) n) as [Hfull|Hpart].
    + rewrite Z.min_l by lia. f_equal. lia.
    + rewrite Z.min_r by lia.
      rewrite !firstn_all2; [reflexivity | |]; rewrite length_skipn; fold n; lia.
  - rewrite !Z.min_r by lia. rewrite Z.sub_diag. cbn [Z.to_nat firstn].
    rewrite (skipn_all2 data) by (fold n; lia). reflexivity.
Qed.

Lemma firstn_add {A : Type} (a b : nat) (l : list A) :
  firstn (a + b) l = firstn a l ++ firstn b (skipn a l).
Proof.
  revert l. induction a as [|a IH]; intros l; [reflexivity|].
  destruct l as [|x l]; [cbn; rewrite firstn_nil; reflexivity|].
  cbn [Nat.add firstn skipn app]. rewrite IH. reflexivity.
Qed.

Lemma concat_chunks (data : list byte) (m : nat) :
  List.concat (map (fun k => firstn 16 (skipn (16 * k) data)) (seq 0 m)) =
  firstn (16 * m) data.
Proof.
  induction m as [|m IH]; [reflexivity|].
  rewrite seq_S, map_app, concat_app, IH. cbn [map List.concat Nat.add].
  rewrite app_nil_r.
  replace (16 * S m)%nat with (16 * m + 16)%nat by lia.
  symmetry. apply firstn_add.
Qed.

(** ** The round trip *)

(** C8: for every byte string, reading back the hexadecimal columns of
    its dump in sixteen columns, without the offset column and without
    the gutter, gives the byte string. *)
Theorem hex_dump_round_trip (B : list byte) :
  exists dump,
    hex_dump B 16 = Ok dump /\
    reparse_hex_columns 16 dump = B.
Proof.
  unfold hex_dump. cbn [Z.eqb Z.ltb Z.compare].
  eexists. split; [reflexivity|].
  unfold reparse_hex_columns, Py.range_step, Py.len.
  set (n := List.length B).
  set (m := Z.to_nat ((Z.of_nat n - 0 + 16 - 1) / 16)).
  assert (Hm : (n <= 16 * m)%nat /\ forall k, (k < m)%nat -> (16 * k < n)%nat).
  { pose proof (Z.div_mod (Z.of_nat n - 0 + 16 - 1) 16 ltac:(lia)) as Hdm.
    pose proof (Z.mod_pos_bound (Z.of_nat n - 0 + 16 - 1) 16 ltac:(lia)) as Hb.
    assert (Hq : 0 <= (Z.of_nat n - 0 + 16 - 1) / 16)
      by (apply Z.div_pos; lia).
    split; [unfold m; lia | intros k Hk; unfold m in Hk; lia]. }
  destruct Hm as [Hcover Hinside].
  rewrite map_map.
  destruct m as [|m'] eqn:Em.
  - assert (B = []) as -> by (destruct B; [reflexivity | cbn in n; lia]).
    reflexivity.
  - rewrite <- Em in *.
    assert (Hline : forall k, In k (seq 0 m) ->
              list_ascii_of_string (hex_dump_line B 16 (0 + Z.of_nat k * 16)) =
              line_chars (0 + Z.of_nat k * 16) (firstn 16 (skipn (16 * k) B))).
    { intros k Hk. apply in_seq in Hk.
      rewrite <- slice_chunk. apply hex_dump_line_chars.
      - rewrite slice_chunk.
        assert (Hk' : (16 * k < n)%nat) by (apply Hinside; lia).
        destruct (skipn (16 * k) B) as [|x r] eqn:Es.
        + apply (f_equal (@List.length byte)) in Es.
          rewrite length_skipn in Es. fold n in Es. cbn in Es. lia.
        + discriminate.
      - rewrite slice_chunk. rewrite length_firstn. lia. }
    rewrite Em at 1. cbn [seq map].
    rewrite split_lines_join.
    + change (hex_dump_line B 16 (0 + Z.of_nat 0 * 16)
              :: map (fun k => hex_dump_line B 16 (0 + Z.of_nat k * 16)) (seq 1 m'))
        with (map (fun k => hex_dump_line B 16 (0 + Z.of_nat k * 16))
                  (seq 0 (S m'))).
      rewrite <- Em, !map_map.
      rewrite (map_ext_in _ (fun k => firstn 16 (skipn (16 * k) B))).
      * rewrite concat_chunks. apply firstn_all2. fold n. exact Hcover.
      * intros k Hk. rewrite (Hline k Hk).
        apply parse_line_chars. rewrite length_firstn. lia.
    + change (hex_dump_line B 16 (0 + Z.of_nat 0 * 16)
              :: map (fun k => hex_dump_line B 16 (0 + Z.of_nat k * 16)) (seq 1 m'))
        with (map (fun k => hex_dump_line B 16 (0 + Z.of_nat k * 16))
                  (seq 0 (S m'))).
      rewrite <- Em. apply Forall_forall. intros s Hs.
      apply in_map_iff in Hs. destruct Hs as (k & <- & Hk).
      rewrite (Hline k Hk). apply line_chars_not_newline.
Qed.

(* ================================================================== *)
(** * More on the block builder *)

(** A byte read back as an integer is the integer it was made from. *)
Lemma ptype_not_padded (pt : Z) (ptype : byte) :
  Py.byte_of_int pt = Ok ptype -> pt <> 0x01 -> Byte.eqb ptype x01 = false.
Proof.
  intros H Hne. apply byte_eqb_neq. intros ->.
  apply byte_of_int_inv in H. destruct H as [_ H]. apply Hne. rewrite <- H.
  reflexivity.
Qed.

(** X1: the constructor returns a block exactly when the padding type
    and the skip byte are both in [range(256)]; otherwise it raises
    [ValueError], and it raises nothing else. *)
Theorem init_raises_exactly_outside_bytes
        (F : list byte) (pt : Z) (ov : option Z) :
  (0 <= pt <= 255 /\ 0 <= skip_of ov <= 255 ->
     exists blk, __init__ F pt ov = Ok blk) /\
  (~ (0 <= pt <= 255 /\ 0 <= skip_of ov <= 255) ->
     __init__ F pt ov = Raise ValueError).
Proof.
  split.
  - intros [Hpt Hov]. apply init_total; assumption.
  - intros Hbad. unfold __init__. fold (skip_of ov).
    destruct (Z_lt_dec pt 0); [apply build_bad_padding_type; lia|].
    destruct (Z_lt_dec 255 pt); [apply build_bad_padding_type; lia|].
    apply build_bad_skip. lia.
Qed.

(** X2: whatever the firmware, its length, the padding type and the
    override, the last 32 bytes of [raw] are the SHA-256 digest of the
    firmware: the digest sits at [off_correct_hash], ends where [raw]
    ends, which is [off_calc_hash], and is also what the attributes
    [correct_hash] and [calculated_hash] hold.  The final slice never
    cuts into it. *)
Theorem embedded_hash_is_digest
        (F : list byte) (pt : Z) (ov : option Z) (blk : SignatureBlock.t)
        (H : __init__ F pt ov = Ok blk) :
  Py.slice (raw blk) (off_correct_hash blk) (off_calc_hash blk)
    = SHA256.digest F /\
  off_calc_hash blk = off_correct_hash blk + HASH_LEN /\
  off_calc_hash blk = Py.len (raw blk) /\
  Py.getitem (raw blk) (off_calc_hash blk) = Raise IndexError /\
  correct_hash blk = SHA256.digest F /\
  calculated_hash blk = SHA256.digest F /\
  firmware_data blk = F.
Proof.
  pose proof (init_raw_length _ _ _ _ H) as Hlen.
  apply init_inv in H. destruct H as (ptype & skip & _ & _ & ->).
  destruct (pt =? 1);
    cbn [raw off_correct_hash off_calc_hash correct_hash calculated_hash
         firmware_data padded_block unpadded_block] in *.
  - split.
    { rewrite padded_raw_fixed. apply slice_app_rest_at; [reflexivity|].
      unfold Py.len. rewrite digest_length. reflexivity. }
    split; [reflexivity|]. split; [symmetry; exact Hlen|].
    split; [unfold Py.getitem; rewrite Hlen; reflexivity|].
    repeat split.
  - split.
    { rewrite unpadded_raw_fixed. apply slice_app_rest_at; [reflexivity|].
      unfold Py.len. rewrite digest_length. reflexivity. }
    split; [reflexivity|]. split; [symmetry; exact Hlen|].
    split; [unfold Py.getitem; rewrite Hlen; reflexivity|].
    repeat split.
Qed.

Lemma embedded_hash_is_digest_witness :
  __init__ demo_firmware PADDING_TYPE_PADDED None
    = Ok (padded_block demo_firmware 13 x0d) /\
  Py.slice (raw (padded_block demo_firmware 13 x0d)) 95 127
    = SHA256.digest demo_firmware.
Proof.
  assert (E : __init__ demo_firmware PADDING_TYPE_PADDED None
              = Ok (padded_block demo_firmware 13 x0d))
    by (vm_compute; reflexivity).
  split; [exact E|].
  exact (proj1 (embedded_hash_is_digest _ _ _ _ E)).
Defined.

(** X3: every recorded offset addresses the field it is named after:
    0x00 at [off_byte0], the padding type at [off_byte1], 0x00 at
    [off_separator], 0x30 0x31 0x30 at the three marker offsets, the
    skip byte at [off_0d], the thirteen bytes of the identifier between
    [off_inner_start] and [off_inner_end], 0x04 and 0x20 after them. *)
Theorem offsets_address_their_fields
        (F : list byte) (pt : Z) (ov : option Z) (blk : SignatureBlock.t)
        (H : __init__ F pt ov = Ok blk) :
  exists ptype skip,
    Py.byte_of_int pt = Ok ptype /\
    Py.byte_of_int (skip_of ov) = Ok skip /\
    inner_block_len_byte blk = skip_of ov /\
    Py.getitem (raw blk) (off_byte0 blk) = Ok x00 /\
    Py.getitem (raw blk) (off_byte1 blk) = Ok ptype /\
    Py.getitem (raw blk) (off_separator blk) = Ok x00 /\
    Py.getitem (raw blk) (off_30_1 blk) = Ok x30 /\
    Py.getitem (raw blk) (off_31 blk) = Ok x31 /\
    Py.getitem (raw blk) (off_30_2 blk) = Ok x30 /\
    Py.getitem (raw blk) (off_0d blk) = Ok skip /\
    Py.slice (raw blk) (off_inner_start blk) (off_inner_end blk)
      = inner_block_bytes /\
    Py.getitem (raw blk) (off_04 blk) = Ok x04 /\
    Py.getitem (raw blk) (off_20 blk) = Ok x20.
Proof.
  apply init_inv in H. destruct H as (ptype & skip & Hp & Hs & ->).
  exists ptype, skip. split; [exact Hp|]. split; [exact Hs|].
  destruct (Z.eqb_spec pt 1) as [->|Hne];
    cbn [raw inner_block_len_byte off_byte0 off_byte1 off_separator off_30_1
         off_31 off_30_2 off_0d off_inner_start off_inner_end off_04 off_20
         padded_block unpadded_block].
  - change (Py.byte_of_int 1) with (Ok x01) in Hp. injection Hp as <-.
    rewrite padded_raw_fixed.
    rewrite !getitem_app_lead by closed_bounds.
    rewrite slice_app_lead by closed_bounds.
    repeat split.
  - rewrite unpadded_raw_fixed.
    rewrite !getitem_app_lead by closed_bounds.
    rewrite slice_app_lead by closed_bounds.
    repeat split.
Qed.

Lemma offsets_address_their_fields_witness :
  __init__ demo_firmware PADDING_TYPE_UNPADDED (Some 15)
    = Ok (unpadded_block demo_firmware 2 15 x02 x0f) /\
  Py.getitem (raw (unpadded_block demo_firmware 2 15 x02 x0f)) 6 = Ok x0f.
Proof.
  assert (E : __init__ demo_firmware PADDING_TYPE_UNPADDED (Some 15)
              = Ok (unpadded_block demo_firmware 2 15 x02 x0f))
    by (vm_compute; reflexivity).
  split; [exact E|].
  destruct (offsets_address_their_fields _ _ _ _ E)
    as (ptype & skip & _ & Hs & _ & _ & _ & _ & _ & _ & _ & H0d & _).
  cbn [off_0d unpadded_block] in H0d. rewrite H0d.
  change (skip_of (Some 15)) with 15 in Hs.
  change (Py.byte_of_int 15) with (Ok x0f) in Hs.
  symmetry. exact Hs.
Defined.

(** X4: a block of padding type 0x01 has a run of 73 bytes 0xFF between
    [off_padding_start] and the separator, and [off_padding_end] is its
    last byte; a block of any other padding type has no run at all: the
    separator stands at [off_padding_start], and [off_padding_end] is 1,
    before the start. *)
Theorem padding_run
        (F : list byte) (pt : Z) (ov : option Z) (blk : SignatureBlock.t)
        (H : __init__ F pt ov = Ok blk) :
  (pt = 0x01 ->
     Py.slice (raw blk) (off_padding_start blk) (off_separator blk)
       = repeat xff 73 /\
     off_padding_end blk = off_separator blk - 1) /\
  (pt <> 0x01 ->
     Py.slice (raw blk) (off_padding_start blk) (off_separator blk) = [] /\
     off_separator blk = off_padding_start blk /\
     off_padding_end blk = 1 /\
     off_padding_end blk < off_padding_start blk).
Proof.
  apply init_inv in H. destruct H as (ptype & skip & _ & _ & ->).
  split.
  - intros ->. cbn [Z.eqb Pos.eqb raw off_padding_start off_separator
                    off_padding_end padded_block].
    rewrite padded_raw_fixed, slice_app_lead by closed_bounds.
    split; reflexivity.
  - intros Hne. apply Z.eqb_neq in Hne. rewrite Hne.
    cbn [raw off_padding_start off_separator off_padding_end unpadded_block].
    rewrite unpadded_raw_fixed, slice_app_lead by closed_bounds.
    repeat split.
Qed.

Lemma padding_run_witness :
  __init__ demo_firmware PADDING_TYPE_PADDED None
    = Ok (padded_block demo_firmware 13 x0d) /\
  Py.slice (raw (padded_block demo_firmware 13 x0d)) 2 75 = repeat xff 73.
Proof.
  assert (E : __init__ demo_firmware PADDING_TYPE_PADDED None
              = Ok (padded_block demo_firmware 13 x0d))
    by (vm_compute; reflexivity).
  split; [exact E|].
  exact (proj1 (proj1 (padding_run _ _ _ _ E) eq_refl)).
Defined.

(** X5: the recorded offsets are in layout order and, but for
    [off_calc_hash], inside [raw]: 0 = off_byte0 < off_byte1 <
    off_padding_start <= off_separator < off_30_1 < off_31 < off_30_2 <
    off_0d < off_inner_start < off_inner_end = off_04 < off_20 <
    off_correct_hash < off_calc_hash = len(raw) <= 128. *)
Theorem offsets_in_layout_order
        (F : list byte) (pt : Z) (ov : option Z) (blk : SignatureBlock.t)
        (H : __init__ F pt ov = Ok blk) :
  off_byte0 blk = 0 /\
  off_byte0 blk < off_byte1 blk < off_padding_start blk /\
  off_padding_start blk <= off_separator blk < off_30_1 blk /\
  off_30_1 blk < off_31 blk < off_30_2 blk /\
  off_30_2 blk < off_0d blk < off_inner_start blk /\
  off_inner_end blk = off_inner_start blk + INNER_BLOCK_REAL_LEN /\
  off_04 blk = off_inner_end blk /\
  off_04 blk < off_20 blk < off_correct_hash blk /\
  off_correct_hash blk < off_calc_hash blk /\
  off_calc_hash blk = Py.len (raw blk) /\
  Py.len (raw blk) <= TOTAL_BLOCK_SIZE.
Proof.
  pose proof (init_raw_length _ _ _ _ H) as Hlen. rewrite Hlen.
  apply init_inv in H. destruct H as (ptype & skip & _ & _ & ->).
  unfold INNER_BLOCK_REAL_LEN, TOTAL_BLOCK_SIZE.
  destruct (pt =? 1);
    cbn [off_byte0 off_byte1 off_padding_start off_separator off_30_1 off_31
         off_30_2 off_0d off_inner_start off_inner_end off_04 off_20
         off_correct_hash off_calc_hash padded_block unpadded_block];
    lia.
Qed.

Lemma offsets_in_layout_order_witness :
  __init__ [] PADDING_TYPE_UNPADDED None = Ok (unpadded_block [] 2 13 x02 x0d) /\
  off_calc_hash (unpadded_block [] 2 13 x02 x0d)
    = Py.len (raw (unpadded_block [] 2 13 x02 x0d)).
Proof.
  assert (E : __init__ [] PADDING_TYPE_UNPADDED None
              = Ok (unpadded_block [] 2 13 x02 x0d))
    by (vm_compute; reflexivity).
  split; [exact E|].
  destruct (offsets_in_layout_order _ _ _ _ E)
    as (_ & _ & _ & _ & _ & _ & _ & _ & _ & Hcalc & _).
  exact Hcalc.
Defined.

(** X6: the firmware reaches [raw] through its digest only: two blocks
    built with the same padding type and the same override from two
    firmware images have the same length and the same bytes before
    [off_correct_hash]. *)
Theorem firmware_changes_only_the_hash_field
        (F1 F2 : list byte) (pt : Z) (ov : option Z)
        (b1 b2 : SignatureBlock.t)
        (H1 : __init__ F1 pt ov = Ok b1)
        (H2 : __init__ F2 pt ov = Ok b2) :
  Py.len (raw b1) = Py.len (raw b2) /\
  off_correct_hash b1 = off_correct_hash b2 /\
  Py.slice (raw b1) 0 (off_correct_hash b1)
    = Py.slice (raw b2) 0 (off_correct_hash b2) /\
  forall i, 0 <= i < off_correct_hash b1 ->
            Py.getitem (raw b1) i = Py.getitem (raw b2) i.
Proof.
  rewrite (init_raw_length _ _ _ _ H1), (init_raw_length _ _ _ _ H2).
  apply init_inv in H1. apply init_inv in H2.
  destruct H1 as (ptype & skip & Hp & Hs & ->).
  destruct H2 as (ptype' & skip' & Hp' & Hs' & ->).
  rewrite Hp in Hp'. injection Hp' as <-.
  rewrite Hs in Hs'. injection Hs' as <-.
  split; [reflexivity|].
  destruct (pt =? 1); cbn [raw off_correct_hash padded_block unpadded_block].
  - split; [reflexivity|]. rewrite !padded_raw_fixed. split.
    + rewrite !slice_app_lead by closed_bounds. reflexivity.
    + intros i Hi.
      rewrite !getitem_app_lead; [reflexivity | |];
        change (Py.len (padded_fixed skip)) with 95; exact Hi.
  - split; [reflexivity|]. rewrite !unpadded_raw_fixed. split.
    + rewrite !slice_app_lead by closed_bounds. reflexivity.
    + intros i Hi.
      rewrite !getitem_app_lead; [reflexivity | |];
        change (Py.len (unpadded_fixed ptype skip)) with 22; exact Hi.
Qed.

Lemma firmware_changes_only_the_hash_field_witness :
  __init__ demo_firmware PADDING_TYPE_PADDED None
    = Ok (padded_block demo_firmware 13 x0d) /\
  __init__ [] PADDING_TYPE_PADDED None = Ok (padded_block [] 13 x0d) /\
  Py.slice (raw (padded_block demo_firmware 13 x0d)) 0 95
    = Py.slice (raw (padded_block [] 13 x0d)) 0 95.
Proof.
  assert (E1 : __init__ demo_firmware PADDING_TYPE_PADDED None
               = Ok (padded_block demo_firmware 13 x0d))
    by (vm_compute; reflexivity).
  assert (E2 : __init__ [] PADDING_TYPE_PADDED None = Ok (padded_block [] 13 x0d))
    by (vm_compute; reflexivity).
  split; [exact E1|]. split; [exact E2|].
  destruct (firmware_changes_only_the_hash_field _ _ _ _ _ _ E1 E2)
    as (_ & _ & Hs & _).
  exact Hs.
Defined.

(* ================================================================== *)
(** * More on the legitimate trace *)

Lemma getitem_app_tail {A : Type} (p s : list A) (i : Z) :
  Py.len p <= i -> Py.getitem (p ++ s) i = Py.getitem s (i - Py.len p).
Proof.
  unfold Py.len. intros Hi. rewrite !getitem_nonneg by lia.
  rewrite nth_error_app2 by lia.
  replace (Z.to_nat (i - Z.of_nat (List.length p)))
    with (Z.to_nat i - List.length p)%nat by lia.
  reflexivity.
Qed.

Lemma getitem_nil {A : Type} (i : Z) : Py.getitem (@nil A) i = Raise IndexError.
Proof.
  unfold Py.getitem, Py.len. cbn [List.length Z.of_nat]. cbv zeta.
  destruct (i <? 0) eqn:E.
  - rewrite Z.add_0_r, E. reflexivity.
  - assert (E' : (0 <=? i) = true) by (apply Z.leb_le; apply Z.ltb_ge in E; lia).
    rewrite E, E'. reflexivity.
Qed.

Lemma bytes_eqb_eq (a b : list byte) : Py.bytes_eqb a b = true <-> a = b.
Proof.
  split.
  - revert b. induction a as [|x a IH]; intros [|y b] H; try discriminate H.
    + reflexivity.
    + cbn [Py.bytes_eqb] in H. apply andb_prop in H as [Hx Hr].
      apply Byte.byte_dec_bl in Hx. rewrite Hx, (IH b Hr). reflexivity.
  - intros ->. apply bytes_eqb_refl.
Qed.

Lemma all_ff_iff (l : list byte) :
  forallb (fun b => Byte.eqb b xff) l = true <-> l = repeat xff (List.length l).
Proof.
  induction l as [|b l IH]; [split; reflexivity|].
  cbn [forallb List.length repeat]. split.
  - intros H. apply andb_prop in H as [Hb Hl].
    apply Byte.byte_dec_bl in Hb. apply IH in Hl. rewrite Hb, <- Hl. reflexivity.
  - intros H. injection H as -> Hl. apply IH in Hl. rewrite Hl. reflexivity.
Qed.

(** Reading a buffer cut as a padded block. *)
Lemma padded_shape_reads
      (b0 b1 sep m1 m2 m3 m4 m5 m6 m7 m8 m9 m10 m11 m12 m13 m14 m15 m16 m17
       m18 m19 : byte) (pad h : list byte) :
  List.length pad = 73%nat -> List.length h = 32%nat ->
  let T := padded_shape b0 b1 pad sep
             [m1; m2; m3; m4; m5; m6; m7; m8; m9; m10; m11; m12; m13; m14; m15;
              m16; m17; m18; m19] h in
  Py.len T = 127 /\
  Py.getitem T 0 = Ok b0 /\ Py.getitem T 1 = Ok b1 /\
  Py.slice T 2 75 = pad /\
  Py.getitem T 75 = Ok sep /\
  Py.getitem T 76 = Ok m1 /\ Py.getitem T 77 = Ok m2 /\
  Py.getitem T 78 = Ok m3 /\ Py.getitem T 79 = Ok m4 /\
  Py.getitem T 93 = Ok m18 /\ Py.getitem T 94 = Ok m19 /\
  Py.slice T 95 (95 + HASH_LEN) = h.
Proof.
  intros Hpad Hh T.
  assert (Hlead : Py.len (b0 :: b1 :: pad) = 75)
    by (unfold Py.len; cbn [List.length]; rewrite Hpad; reflexivity).
  assert (Hlen : Py.len T = 127).
  { unfold Py.len, T, padded_shape. rewrite !length_app. cbn [List.length].
    rewrite Hpad, Hh. reflexivity. }
  split; [exact Hlen|].
  assert (Htail : forall i v, 75 <= i < 95 ->
            Py.getitem
              ((sep :: [m1; m2; m3; m4; m5; m6; m7; m8; m9; m10; m11; m12; m13;
                        m14; m15; m16; m17; m18; m19])) (i - 75) = Ok v ->
            Py.getitem T i = Ok v).
  { intros i v Hi Hv. unfold T, padded_shape.
    rewrite getitem_app_tail by (rewrite Hlead; lia).
    rewrite Hlead, getitem_app_lead; [exact Hv|].
    change (Py.len (sep :: _)) with 20. lia. }
  split.
  { unfold T, padded_shape. rewrite getitem_app_lead by (rewrite Hlead; lia).
    rewrite getitem_nonneg by lia. reflexivity. }
  split.
  { unfold T, padded_shape. rewrite getitem_app_lead by (rewrite Hlead; lia).
    rewrite getitem_nonneg by lia. reflexivity. }
  split.
  { unfold T, padded_shape.
    rewrite slice_app_lead by (rewrite ?Hlead; lia).
    change (b0 :: b1 :: pad) with ([b0; b1] ++ pad).
    apply slice_app_rest_at; [reflexivity|].
    unfold Py.len. rewrite Hpad. reflexivity. }
  do 7 (split; [apply Htail; [lia | reflexivity]|]).
  unfold T, padded_shape. rewrite app_assoc.
  apply slice_app_rest_at.
  - unfold Py.len. rewrite length_app. cbn [List.length]. rewrite Hpad.
    reflexivity.
  - unfold Py.len. rewrite Hh. reflexivity.
Qed.

(** The legitimate trace over any 127 bytes at the offsets of a padded
    block. *)
Lemma padded_shape_trace
      (blk : SignatureBlock.t) (F : list byte) (b0 b1 sep : byte)
      (pad mid h : list byte) :
  offsets blk = padded_offsets ->
  raw blk = padded_shape b0 b1 pad sep mid h ->
  List.length pad = 73%nat -> List.length mid = 19%nat ->
  List.length h = 32%nat ->
  exists steps final,
    verify_correct_steps blk F = Ok steps /\
    final_step steps = Some final /\
    (List.length steps, id final, tag final, is_fatal final) =
      legit_outcome (Byte.eqb b0 x00) (Byte.eqb b1 x01)
                    (forallb (fun b => Byte.eqb b xff) pad)
                    (Byte.eqb sep x00)
                    (Py.bytes_eqb h (SHA256.digest F)) /\
    only_last_may_be_fatal steps = true /\
    (Byte.eqb b0 x00 = true ->
     Byte.eqb b1 x01 && negb (forallb (fun b => Byte.eqb b xff) pad) = false ->
     Byte.eqb sep x00 = true ->
     exists marker,
       step_numbered 6 steps = Some marker /\
       ok marker = Byte.eqb (nth 0 mid x00) x30 && Byte.eqb (nth 2 mid x00) x30 /\
       tag marker = "PASS" /\ fatal marker = None).
Proof.
  intros Hoff Hraw Hpad Hmid Hh.
  do 19 (destruct mid as [|? mid]; [discriminate Hmid|]).
  destruct mid; [|discriminate Hmid]. clear Hmid.
  destruct (padded_shape_reads b0 b1 sep b b2 b3 b4 b5 b6 b7 b8 b9 b10 b11 b12
              b13 b14 b15 b16 b17 b18 b19 pad h Hpad Hh)
    as (Rlen & R0 & R1 & Rpad & R75 & R76 & R77 & R78 & R79 & R93 & R94 & Rh).
  unfold verify_correct_steps.
  destruct blk; cbn [SignatureBlock.raw SignatureBlock.off_byte0
    SignatureBlock.off_byte1 SignatureBlock.off_padding_start
    SignatureBlock.off_separator SignatureBlock.off_30_1 SignatureBlock.off_31
    SignatureBlock.off_30_2 SignatureBlock.off_0d SignatureBlock.off_inner_start
    SignatureBlock.off_inner_end SignatureBlock.off_04 SignatureBlock.off_20
    SignatureBlock.off_correct_hash] in *.
  use_offsets Hoff. subst raw0.
  rewrite !Rlen, !R0, !R1, !Rpad, !R75, !R76, !R77, !R78, !R79, !R93, !R94, !Rh.
  cbn [nth bind].
  destruct (Byte.eqb b0 x00);
    [ destruct (Byte.eqb b1 x01);
      [ destruct (forallb (fun x => Byte.eqb x xff) pad);
        [ destruct (Byte.eqb sep x00);
          [ destruct (Py.bytes_eqb h (SHA256.digest F)) | ] | ]
      | destruct (Byte.eqb sep x00);
        [ destruct (Py.bytes_eqb h (SHA256.digest F)) | ] ]
    | ];
    evaluate_tests;
    (do 2 eexists; split; [reflexivity|]; split; [reflexivity|];
     split; [reflexivity|]; split; [reflexivity|];
     intros;
     first [ discriminate
           | eexists; split; [reflexivity|]; repeat split ]).
Qed.

(** Reading a buffer cut as an unpadded block. *)
Lemma unpadded_shape_reads
      (b0 b1 sep m1 m2 m3 m4 m5 m6 m7 m8 m9 m10 m11 m12 m13 m14 m15 m16 m17
       m18 m19 : byte) (h : list byte) :
  List.length h = 32%nat ->
  let T := unpadded_shape b0 b1 sep
             [m1; m2; m3; m4; m5; m6; m7; m8; m9; m10; m11; m12; m13; m14; m15;
              m16; m17; m18; m19] h in
  Py.len T = 54 /\
  Py.getitem T 0 = Ok b0 /\ Py.getitem T 1 = Ok b1 /\
  Py.slice T 2 2 = [] /\
  Py.getitem T 2 = Ok sep /\
  Py.getitem T 3 = Ok m1 /\ Py.getitem T 4 = Ok m2 /\
  Py.getitem T 5 = Ok m3 /\ Py.getitem T 6 = Ok m4 /\
  Py.getitem T 20 = Ok m18 /\ Py.getitem T 21 = Ok m19 /\
  Py.slice T 22 (22 + HASH_LEN) = h.
Proof.
  intros Hh T.
  split.
  { unfold Py.len, T, unpadded_shape. rewrite length_app. cbn [List.length].
    rewrite Hh. reflexivity. }
  unfold T, unpadded_shape.
  rewrite !getitem_app_lead by closed_bounds.
  rewrite slice_app_lead by closed_bounds.
  do 10 (split; [reflexivity|]).
  apply slice_app_rest_at; [reflexivity|].
  unfold Py.len. rewrite Hh. reflexivity.
Qed.

(** The legitimate trace over any 54 bytes at the offsets of an
    unpadded block: the step of the padding run is never part of it. *)
Lemma unpadded_shape_trace
      (blk : SignatureBlock.t) (F : list byte) (b0 b1 sep : byte)
      (mid h : list byte) :
  offsets blk = unpadded_offsets ->
  raw blk = unpadded_shape b0 b1 sep mid h ->
  List.length mid = 19%nat -> List.length h = 32%nat ->
  exists steps final,
    verify_correct_steps blk F = Ok steps /\
    final_step steps = Some final /\
    (List.length steps, id final, tag final, is_fatal final) =
      legit_outcome (Byte.eqb b0 x00) false true (Byte.eqb sep x00)
                    (Py.bytes_eqb h (SHA256.digest F)) /\
    only_last_may_be_fatal steps = true /\
    step_numbered 4 steps = None /\
    (Byte.eqb b0 x00 = true -> Byte.eqb sep x00 = true ->
     exists marker,
       step_numbered 6 steps = Some marker /\
       ok marker = Byte.eqb (nth 0 mid x00) x30 && Byte.eqb (nth 2 mid x00) x30 /\
       tag marker = "PASS" /\ fatal marker = None).
Proof.
  intros Hoff Hraw Hmid Hh.
  do 19 (destruct mid as [|? mid]; [discriminate Hmid|]).
  destruct mid; [|discriminate Hmid]. clear Hmid.
  destruct (unpadded_shape_reads b0 b1 sep b b2 b3 b4 b5 b6 b7 b8 b9 b10 b11 b12
              b13 b14 b15 b16 b17 b18 b19 h Hh)
    as (Rlen & R0 & R1 & Rpad & R2 & R3 & R4 & R5 & R6 & R20 & R21 & Rh).
  unfold verify_correct_steps.
  destruct blk; cbn [SignatureBlock.raw SignatureBlock.off_byte0
    SignatureBlock.off_byte1 SignatureBlock.off_padding_start
    SignatureBlock.off_separator SignatureBlock.off_30_1 SignatureBlock.off_31
    SignatureBlock.off_30_2 SignatureBlock.off_0d SignatureBlock.off_inner_start
    SignatureBlock.off_inner_end SignatureBlock.off_04 SignatureBlock.off_20
    SignatureBlock.off_correct_hash] in *.
  use_offsets Hoff. subst raw0.
  rewrite !Rlen, !R0, !R1, !Rpad, !R2, !R3, !R4, !R5, !R6, !R20, !R21, !Rh.
  cbn [nth bind].
  change (2 <? 2) with false. rewrite !andb_false_r.
  destruct (Byte.eqb b0 x00);
    [ destruct (Byte.eqb sep x00);
      [ destruct (Py.bytes_eqb h (SHA256.digest F)) | ]
    | ];
    evaluate_tests;
    (do 2 eexists; split; [reflexivity|]; split; [reflexivity|];
     split; [reflexivity|]; split; [reflexivity|]; split; [reflexivity|];
     intros;
     first [ discriminate
           | eexists; split; [reflexivity|]; repeat split ]).
Qed.
(* ================================================================== *)
(** * What the legitimate trace checks, and what it does not *)

Lemma byte_eqb_iff (a b : byte) : Byte.eqb a b = true <-> a = b.
Proof.
  split; [apply Byte.byte_dec_bl|]. intros ->. apply byte_eqb_refl.
Qed.

Lemma all_ff_Forall (l : list byte) :
  forallb (fun b => Byte.eqb b xff) l = true <-> Forall (fun b => b = xff) l.
Proof.
  rewrite forallb_forall, Forall_forall.
  split; intros H x Hx; apply byte_eqb_iff; apply H; exact Hx.
Qed.

Lemma run_test_iff (b1 : byte) (pad : list byte) :
  Byte.eqb b1 x01 && negb (forallb (fun b => Byte.eqb b xff) pad) = false <->
  (b1 = x01 -> Forall (fun b => b = xff) pad).
Proof.
  split.
  - intros H E. subst b1. rewrite byte_eqb_refl in H. cbn [andb] in H.
    apply negb_false_iff in H. apply all_ff_Forall. exact H.
  - intros H. destruct (Byte.eqb b1 x01) eqn:E; [|reflexivity].
    apply byte_eqb_iff in E. apply H, all_ff_Forall in E.
    rewrite E. reflexivity.
Qed.

Lemma accepts_iff (b0 b1 sep : byte) (pad h d : list byte) :
  legit_accepts (Byte.eqb b0 x00) (Byte.eqb b1 x01)
                (forallb (fun b => Byte.eqb b xff) pad)
                (Byte.eqb sep x00) (Py.bytes_eqb h d) = true <->
  b0 = x00 /\ (b1 = x01 -> Forall (fun b => b = xff) pad) /\
  sep = x00 /\ h = d.
Proof.
  unfold legit_accepts.
  rewrite !andb_true_iff, !byte_eqb_iff, bytes_eqb_eq, <- run_test_iff.
  destruct (Byte.eqb b1 x01), (forallb (fun b => Byte.eqb b xff) pad);
    cbn [negb orb andb]; intuition discriminate.
Qed.

(** The outcome of a trace, test by test. *)
Lemma legit_outcome_cases (b0 w r s m : bool) (n : nat) (i : Z) (t : string)
      (f : bool) :
  (n, i, t, f) = legit_outcome b0 w r s m ->
  (t = "VERIFIED ✓" <-> legit_accepts b0 w r s m = true) /\
  (f = negb (legit_accepts b0 w r s m)) /\
  (legit_accepts b0 w r s m = false -> t = "FAIL") /\
  (legit_accepts b0 w r s m = true ->
   i = 9 /\ n = (if w then 10 else 9)%nat) /\
  (b0 = false -> i = 2 /\ n = 3%nat /\ t = "FAIL") /\
  (b0 = true -> w && negb r = true -> i = 4 /\ n = 5%nat /\ t = "FAIL") /\
  (b0 = true -> w && negb r = false -> s = false ->
   i = 5 /\ n = (if w then 6 else 5)%nat /\ t = "FAIL") /\
  (b0 = true -> w && negb r = false -> s = true -> m = false ->
   i = 9 /\ n = (if w then 10 else 9)%nat /\ t = "FAIL").
Proof.
  destruct b0, w, r, s, m; cbn; intros H; injection H as -> -> -> ->;
    repeat split; intros; (reflexivity || discriminate).
Qed.

(** A trace none of whose steps is fatal: none before the last, and
    not the last. *)
Lemma none_fatal_of_last (steps : list step) (final : step) :
  only_last_may_be_fatal steps = true ->
  final_step steps = Some final ->
  is_fatal final = false ->
  none_fatal steps = true.
Proof.
  unfold only_last_may_be_fatal, final_step, none_fatal.
  intros Hinit Hlast Hf.
  destruct steps as [|s0 steps']; [reflexivity|].
  assert (Hne : s0 :: steps' <> []) by discriminate.
  destruct (exists_last Hne) as (init & x & E). rewrite E in *.
  rewrite removelast_last in Hinit.
  rewrite length_app in Hlast. cbn [List.length] in Hlast.
  rewrite nth_error_app2 in Hlast by lia.
  replace (List.length init + 1 - 1 - List.length init)%nat with 0%nat
    in Hlast by lia.
  injection Hlast as ->.
  rewrite forallb_app, Hinit. cbn [forallb]. rewrite Hf. reflexivity.
Qed.

(** The bytes of a built block, cut at its offsets. *)
Lemma padded_raw_shape (skip : byte) (h : list byte) :
  padded_raw skip h =
  padded_shape x00 x01 (repeat xff 73) x00 (built_mid skip) h.
Proof. reflexivity. Qed.

Lemma unpadded_raw_shape (ptype skip : byte) (h : list byte) :
  unpadded_raw ptype skip h = unpadded_shape x00 ptype x00 (built_mid skip) h.
Proof. reflexivity. Qed.

(** X7: the body of [bootrom_verify_correct], run over any 127 bytes at
    the offsets of a padded block, ends with the tag of VERIFIED exactly
    when byte 0 is 0x00, the 73 bytes of the padding run are all 0xFF in
    case byte 1 is 0x01 (with any other byte 1 the run is not looked
    at), the separator is 0x00 and the 32 bytes of the hash field are
    the SHA-256 digest of the firmware.  The nineteen bytes between the
    separator and the hash field, markers and skip byte included, have
    no part in the verdict. *)
Theorem padded_trace_verdict
        (blk : SignatureBlock.t) (F : list byte) (b0 b1 sep : byte)
        (pad mid h : list byte)
        (Hoff : offsets blk = padded_offsets)
        (Hraw : raw blk = padded_shape b0 b1 pad sep mid h)
        (Hpad : List.length pad = 73%nat)
        (Hmid : List.length mid = 19%nat)
        (Hh : List.length h = 32%nat) :
  exists steps final,
    verify_correct_steps blk F = Ok steps /\
    final_step steps = Some final /\
    (tag final = "VERIFIED ✓" <->
     b0 = x00 /\ (b1 = x01 -> Forall (fun b => b = xff) pad) /\
     sep = x00 /\ h = SHA256.digest F).
Proof.
  destruct (padded_shape_trace blk F b0 b1 sep pad mid h Hoff Hraw Hpad Hmid Hh)
    as (steps & final & Es & Ef & Hout & _).
  exists steps, final. split; [exact Es|]. split; [exact Ef|].
  apply legit_outcome_cases in Hout. destruct Hout as (Hv & _).
  rewrite Hv. apply accepts_iff.
Qed.

Lemma padded_trace_verdict_witness :
  exists steps final,
    verify_correct_steps
      (with_raw (padded_block demo_firmware 13 x0d)
                (padded_shape x00 x02 (repeat x00 73) x00 (repeat x00 19)
                              (SHA256.digest demo_firmware)))
      demo_firmware = Ok steps /\
    final_step steps = Some final /\
    tag final = "VERIFIED ✓".
Proof.
  destruct (padded_trace_verdict
              (with_raw (padded_block demo_firmware 13 x0d)
                        (padded_shape x00 x02 (repeat x00 73) x00 (repeat x00 19)
                                      (SHA256.digest demo_firmware)))
              demo_firmware x00 x02 x00 (repeat x00 73) (repeat x00 19)
              (SHA256.digest demo_firmware)
              eq_refl eq_refl eq_refl eq_refl eq_refl)
    as (steps & final & Es & Ef & Hv).
  exists steps, final. split; [exact Es|]. split; [exact Ef|].
  apply Hv. split; [reflexivity|]. split; [discriminate|].
  split; reflexivity.
Defined.

(** X8: over any 54 bytes at the offsets of an unpadded block, the same
    body never emits the step of the padding run (number 4), whatever
    byte 1 is, 0x01 included, and ends with the tag of VERIFIED exactly
    when byte 0 is 0x00, the separator is 0x00 and the hash field is the
    digest of the firmware. *)
Theorem unpadded_trace_verdict
        (blk : SignatureBlock.t) (F : list byte) (b0 b1 sep : byte)
        (mid h : list byte)
        (Hoff : offsets blk = unpadded_offsets)
        (Hraw : raw blk = unpadded_shape b0 b1 sep mid h)
        (Hmid : List.length mid = 19%nat)
        (Hh : List.length h = 32%nat) :
  exists steps final,
    verify_correct_steps blk F = Ok steps /\
    final_step steps = Some final /\
    step_numbered 4 steps = None /\
    (tag final = "VERIFIED ✓" <->
     b0 = x00 /\ sep = x00 /\ h = SHA256.digest F).
Proof.
  destruct (unpadded_shape_trace blk F b0 b1 sep mid h Hoff Hraw Hmid Hh)
    as (steps & final & Es & Ef & Hout & _ & H4 & _).
  exists steps, final. split; [exact Es|]. split; [exact Ef|].
  split; [exact H4|].
  apply legit_outcome_cases in Hout. destruct Hout as (Hv & _).
  rewrite Hv. unfold legit_accepts. cbn [negb orb].
  rewrite andb_true_r, !andb_true_iff, !byte_eqb_iff, bytes_eqb_eq.
  tauto.
Qed.

Lemma unpadded_trace_verdict_witness :
  exists steps final,
    verify_correct_steps
      (with_raw (unpadded_block demo_firmware 2 13 x02 x0d)
                (unpadded_shape x00 x01 x00 (repeat xff 19)
                                (SHA256.digest demo_firmware)))
      demo_firmware = Ok steps /\
    final_step steps = Some final /\
    step_numbered 4 steps = None /\
    tag final = "VERIFIED ✓".
Proof.
  destruct (unpadded_trace_verdict
              (with_raw (unpadded_block demo_firmware 2 13 x02 x0d)
                        (unpadded_shape x00 x01 x00 (repeat xff 19)
                                        (SHA256.digest demo_firmware)))
              demo_firmware x00 x01 x00 (repeat xff 19)
              (SHA256.digest demo_firmware)
              eq_refl eq_refl eq_refl eq_refl)
    as (steps & final & Es & Ef & H4 & Hv).
  exists steps, final. split; [exact Es|]. split; [exact Ef|].
  split; [exact H4|].
  apply Hv. repeat split.
Defined.

(** X9: over any 127 bytes at the offsets of a padded block, a trace
    that is not accepted stops at the first test that fails: its last
    step is the step of that test (number 2 for byte 0, 4 for the
    padding run, 5 for the separator, 9 for the hash), has the tag FAIL
    and is the only fatal step of the trace; the last step of an
    accepted trace is not fatal.  The number of steps tells which test
    failed, given byte 1. *)
Theorem failed_test_ends_the_trace
        (blk : SignatureBlock.t) (F : list byte) (b0 b1 sep : byte)
        (pad mid h : list byte)
        (Hoff : offsets blk = padded_offsets)
        (Hraw : raw blk = padded_shape b0 b1 pad sep mid h)
        (Hpad : List.length pad = 73%nat)
        (Hmid : List.length mid = 19%nat)
        (Hh : List.length h = 32%nat) :
  exists steps final,
    verify_correct_steps blk F = Ok steps /\
    final_step steps = Some final /\
    only_last_may_be_fatal steps = true /\
    (is_fatal final = true <-> tag final <> "VERIFIED ✓") /\
    (b0 <> x00 ->
     id final = 2 /\ List.length steps = 3%nat /\ tag final = "FAIL") /\
    (b0 = x00 -> b1 = x01 -> ~ Forall (fun b => b = xff) pad ->
     id final = 4 /\ List.length steps = 5%nat /\ tag final = "FAIL") /\
    (b0 = x00 -> (b1 = x01 -> Forall (fun b => b = xff) pad) -> sep <> x00 ->
     id final = 5 /\
     List.length steps = (if Byte.eqb b1 x01 then 6 else 5)%nat /\
     tag final = "FAIL") /\
    (b0 = x00 -> (b1 = x01 -> Forall (fun b => b = xff) pad) -> sep = x00 ->
     h <> SHA256.digest F ->
     id final = 9 /\
     List.length steps = (if Byte.eqb b1 x01 then 10 else 9)%nat /\
     tag final = "FAIL").
Proof.
  destruct (padded_shape_trace blk F b0 b1 sep pad mid h Hoff Hraw Hpad Hmid Hh)
    as (steps & final & Es & Ef & Hout & Honly & _).
  exists steps, final. split; [exact Es|]. split; [exact Ef|].
  split; [exact Honly|].
  apply legit_outcome_cases in Hout.
  destruct Hout as (Hv & Hf & _ & _ & H2 & H4 & H5 & H9).
  split.
  { rewrite Hv, Hf, negb_true_iff.
    destruct (legit_accepts _ _ _ _ _); split; congruence. }
  split.
  { intros Hb0. apply H2. apply byte_eqb_neq. exact Hb0. }
  split.
  { intros -> -> Hrun. apply H4; [reflexivity|].
    rewrite byte_eqb_refl. cbn [andb]. apply negb_true_iff.
    destruct (forallb (fun b => Byte.eqb b xff) pad) eqn:E; [|reflexivity].
    apply all_ff_Forall in E. contradiction. }
  split.
  { intros -> Hrun Hsep. apply H5.
    - reflexivity.
    - apply run_test_iff. exact Hrun.
    - apply byte_eqb_neq. exact Hsep. }
  intros -> Hrun -> Hne. apply H9.
  - reflexivity.
  - apply run_test_iff. exact Hrun.
  - reflexivity.
  - destruct (Py.bytes_eqb h (SHA256.digest F)) eqn:E; [|reflexivity].
    apply bytes_eqb_eq in E. contradiction.
Qed.

Lemma failed_test_ends_the_trace_witness :
  exists steps final,
    verify_correct_steps
      (with_raw (padded_block demo_firmware 13 x0d)
                (padded_shape x00 x01 (repeat xff 73) x07 (built_mid x0d)
                              (SHA256.digest demo_firmware)))
      demo_firmware = Ok steps /\
    final_step steps = Some final /\
    id final = 5 /\ List.length steps = 6%nat /\ tag final = "FAIL".
Proof.
  destruct (failed_test_ends_the_trace
              (with_raw (padded_block demo_firmware 13 x0d)
                        (padded_shape x00 x01 (repeat xff 73) x07 (built_mid x0d)
                                      (SHA256.digest demo_firmware)))
              demo_firmware x00 x01 x07 (repeat xff 73) (built_mid x0d)
              (SHA256.digest demo_firmware)
              eq_refl eq_refl eq_refl eq_refl eq_refl)
    as (steps & final & Es & Ef & _ & _ & _ & _ & H5 & _).
  exists steps, final. split; [exact Es|]. split; [exact Ef|].
  assert (Hrun : x01 = x01 -> Forall (fun b => b = xff) (repeat xff 73)).
  { intros _. apply all_ff_Forall. reflexivity. }
  assert (Hsep : x07 <> x00) by discriminate.
  exact (H5 eq_refl Hrun Hsep).
Defined.

(** X10: the two 0x30 markers are reported, not enforced.  Over any 127
    bytes at the offsets of a padded block whose byte 0, padding run,
    separator and hash field pass, the step of the markers (number 6)
    has [ok] true exactly when the bytes at [off_30_1] and [off_30_2]
    are both 0x30, but its tag is PASS and it has no [fatal] key either
    way, and the trace still ends as VERIFIED. *)
Theorem markers_are_reported_not_enforced
        (blk : SignatureBlock.t) (F : list byte) (b1 : byte)
        (pad mid : list byte)
        (Hoff : offsets blk = padded_offsets)
        (Hraw : raw blk = padded_shape x00 b1 pad x00 mid (SHA256.digest F))
        (Hpad : List.length pad = 73%nat)
        (Hmid : List.length mid = 19%nat)
        (Hrun : b1 = x01 -> Forall (fun b => b = xff) pad) :
  exists steps marker final,
    verify_correct_steps blk F = Ok steps /\
    step_numbered 6 steps = Some marker /\
    ok marker = Byte.eqb (nth 0 mid x00) x30 && Byte.eqb (nth 2 mid x00) x30 /\
    tag marker = "PASS" /\ fatal marker = None /\
    final_step steps = Some final /\
    tag final = "VERIFIED ✓" /\
    none_fatal steps = true.
Proof.
  destruct (padded_shape_trace blk F x00 b1 x00 pad mid (SHA256.digest F)
              Hoff Hraw Hpad Hmid (digest_length F))
    as (steps & final & Es & Ef & Hout & Honly & Hmark).
  apply run_test_iff in Hrun.
  destruct (Hmark eq_refl Hrun eq_refl) as (marker & E6 & Hok & Htag & Hfat).
  exists steps, marker, final.
  split; [exact Es|]. split; [exact E6|]. split; [exact Hok|].
  split; [exact Htag|]. split; [exact Hfat|]. split; [exact Ef|].
  apply legit_outcome_cases in Hout. destruct Hout as (Hv & Hf & _).
  assert (Hacc : legit_accepts (Byte.eqb x00 x00) (Byte.eqb b1 x01)
                   (forallb (fun b => Byte.eqb b xff) pad) (Byte.eqb x00 x00)
                   (Py.bytes_eqb (SHA256.digest F) (SHA256.digest F)) = true).
  { apply accepts_iff. split; [reflexivity|].
    split; [apply run_test_iff; exact Hrun|]. split; reflexivity. }
  split; [apply Hv; exact Hacc|].
  apply (none_fatal_of_last steps final Honly Ef).
  rewrite Hf, Hacc. reflexivity.
Qed.

Lemma markers_are_reported_not_enforced_witness :
  exists steps marker final,
    verify_correct_steps
      (with_raw (padded_block demo_firmware 13 x0d)
                (padded_shape x00 x01 (repeat xff 73) x00 (repeat x00 19)
                              (SHA256.digest demo_firmware)))
      demo_firmware = Ok steps /\
    step_numbered 6 steps = Some marker /\
    ok marker = false /\ tag marker = "PASS" /\
    final_step steps = Some final /\ tag final = "VERIFIED ✓".
Proof.
  assert (Hrun : x01 = x01 -> Forall (fun b => b = xff) (repeat xff 73)).
  { intros _. apply all_ff_Forall. reflexivity. }
  destruct (markers_are_reported_not_enforced
              (with_raw (padded_block demo_firmware 13 x0d)
                        (padded_shape x00 x01 (repeat xff 73) x00 (repeat x00 19)
                                      (SHA256.digest demo_firmware)))
              demo_firmware x01 (repeat xff 73) (repeat x00 19)
              eq_refl eq_refl eq_refl eq_refl Hrun)
    as (steps & marker & final & Es & E6 & Hok & Htag & _ & Ef & Hv & _).
  exists steps, marker, final.
  split; [exact Es|]. split; [exact E6|]. split; [exact Hok|].
  split; [exact Htag|]. split; [exact Ef|]. exact Hv.
Defined.

(** X11: every block the constructor returns, for any firmware, any
    padding type and any override, passes the body of
    [bootrom_verify_correct] run with the same firmware: the trace ends
    with step 9 tagged VERIFIED and no step is fatal.  It has ten steps
    for padding type 0x01 and nine, without the step of the padding
    run, for any other padding type.  The override, which is the skip
    byte, is never used to move the cursor. *)
Theorem every_built_block_verifies
        (F : list byte) (pt : Z) (ov : option Z) (blk : SignatureBlock.t)
        (H : __init__ F pt ov = Ok blk) :
  exists steps final,
    verify_correct_steps blk F = Ok steps /\
    final_step steps = Some final /\
    id final = 9 /\ tag final = "VERIFIED ✓" /\
    none_fatal steps = true /\
    List.length steps = (if pt =? 0x01 then 10%nat else 9%nat) /\
    (pt <> 0x01 -> step_numbered 4 steps = None).
Proof.
  apply init_inv in H. destruct H as (ptype & skip & _ & _ & ->).
  destruct (Z.eqb_spec pt 1) as [->|Hne].
  - destruct (padded_shape_trace (padded_block F (skip_of ov) skip) F
                x00 x01 x00 (repeat xff 73) (built_mid skip) (SHA256.digest F)
                eq_refl eq_refl eq_refl eq_refl (digest_length F))
      as (steps & final & Es & Ef & Hout & Honly & _).
    exists steps, final. split; [exact Es|]. split; [exact Ef|].
    apply legit_outcome_cases in Hout.
    destruct Hout as (Hv & Hf & _ & H9 & _).
    assert (Hacc : legit_accepts (Byte.eqb x00 x00) (Byte.eqb x01 x01)
                     (forallb (fun b => Byte.eqb b xff) (repeat xff 73))
                     (Byte.eqb x00 x00)
                     (Py.bytes_eqb (SHA256.digest F) (SHA256.digest F)) = true).
    { apply accepts_iff. split; [reflexivity|].
      split; [intros _; apply all_ff_Forall; reflexivity|].
      split; reflexivity. }
    destruct (H9 Hacc) as (Hid & Hn).
    split; [exact Hid|]. split; [apply Hv; exact Hacc|].
    split; [apply (none_fatal_of_last steps final Honly Ef);
            rewrite Hf, Hacc; reflexivity|].
    split; [exact Hn|]. intros Hc. contradiction Hc. reflexivity.
  - destruct (unpadded_shape_trace
                (unpadded_block F pt (skip_of ov) ptype skip) F
                x00 ptype x00 (built_mid skip) (SHA256.digest F)
                eq_refl eq_refl eq_refl (digest_length F))
      as (steps & final & Es & Ef & Hout & Honly & H4 & _).
    exists steps, final. split; [exact Es|]. split; [exact Ef|].
    apply legit_outcome_cases in Hout.
    destruct Hout as (Hv & Hf & _ & H9 & _).
    assert (Hacc : legit_accepts (Byte.eqb x00 x00) false true
                     (Byte.eqb x00 x00)
                     (Py.bytes_eqb (SHA256.digest F) (SHA256.digest F)) = true).
    { unfold legit_accepts. rewrite bytes_eqb_refl. reflexivity. }
    destruct (H9 Hacc) as (Hid & Hn).
    split; [exact Hid|]. split; [apply Hv; exact Hacc|].
    split; [apply (none_fatal_of_last steps final Honly Ef);
            rewrite Hf, Hacc; reflexivity|].
    split; [exact Hn|]. intros _. exact H4.
Qed.

Lemma every_built_block_verifies_witness :
  __init__ demo_firmware 0x02 (Some 200)
    = Ok (unpadded_block demo_firmware 2 200 x02 xc8) /\
  exists steps final,
    verify_correct_steps (unpadded_block demo_firmware 2 200 x02 xc8)
                         demo_firmware = Ok steps /\
    final_step steps = Some final /\
    tag final = "VERIFIED ✓" /\
    List.length steps = 9%nat.
Proof.
  assert (E : __init__ demo_firmware 0x02 (Some 200)
              = Ok (unpadded_block demo_firmware 2 200 x02 xc8))
    by (vm_compute; reflexivity).
  split; [exact E|].
  destruct (every_built_block_verifies _ _ _ _ E)
    as (steps & final & Es & Ef & _ & Hv & _ & Hn & _).
  exists steps, final.
  split; [exact Es|]. split; [exact Ef|]. split; [exact Hv|]. exact Hn.
Defined.

(** X12: the block that [forge_sighax] returns is also accepted by the
    body of [bootrom_verify_correct]: run over the forged block and the
    evil firmware it gives nine steps, none fatal, ending as VERIFIED,
    and its step 7 reports the forged skip byte 15 and a cursor after
    the skip at the hash field, offset 22. *)
Theorem forged_block_passes_the_legitimate_parser (F : list byte) :
  exists blk info steps final skip,
    forge_sighax F = Ok (blk, info) /\
    verify_correct_steps blk F = Ok steps /\
    List.length steps = 9%nat /\
    none_fatal steps = true /\
    final_step steps = Some final /\
    tag final = "VERIFIED ✓" /\
    step_numbered 7 steps = Some skip /\
    Py.dict_get String.eqb (vals skip) "Valor"
      = Some ("0x0F = 15 bytes (normal)") /\
    Py.dict_get String.eqb (vals skip) "Puntero tras skip"
      = Some ("→ offset " +++ Py.str (off_correct_hash blk)) /\
    off_correct_hash blk = skip_lands_at info.
Proof.
  rewrite forge_sighax_eq. exists (forged_block F), (forged_info F).
  unfold forged_block.
  destruct (unpadded_shape_reads x00 x02 x00 x30 x31 x30 x0f x06 x09 x60 x86
              x48 x01 x65 x03 x04 x02 x01 x05 x00 x04 x20 (SHA256.digest F)
              (digest_length F))
    as (Rlen & R0 & R1 & Rpad & R2 & R3 & R4 & R5 & R6 & R20 & R21 & Rh).
  unfold verify_correct_steps.
  cbn [raw off_byte0 off_byte1 off_padding_start off_separator off_30_1 off_31
       off_30_2 off_0d off_inner_start off_inner_end off_04 off_20
       off_correct_hash unpadded_block].
  rewrite unpadded_raw_shape. unfold built_mid, inner_block_bytes.
  cbn [app].
  rewrite !Rlen, !R0, !R1, !Rpad, !R2, !R3, !R4, !R5, !R6, !R20, !R21, !Rh.
  cbn [bind]. rewrite bytes_eqb_refl.
  evaluate_tests.
  do 3 eexists.
  split; [reflexivity|]. split; [reflexivity|]. split; [reflexivity|].
  split; [reflexivity|]. split; [reflexivity|]. split; [reflexivity|].
  split; [reflexivity|]. split; [vm_compute; reflexivity|].
  split; [vm_compute; reflexivity|]. reflexivity.
Qed.
(* ================================================================== *)
(** * The adversarial trace tests nothing *)


(** X14: the adversarial trace compares nothing and hashes nothing.
    Its steps do not depend on the firmware argument, and whenever it
    returns, its last step shows the hash stored in [forge_info] under
    both "correct_hash" and "calculated_hash", whatever bytes the block
    holds where the cursor lands and whatever the firmware is. *)
Theorem vulnerable_trace_compares_nothing
        (blk : SignatureBlock.t) (F F' : list byte) (info : forge_info) :
  bootrom_verify_vulnerable blk F info
    = bootrom_verify_vulnerable blk F' info /\
  forall steps,
    bootrom_verify_vulnerable blk F info = Ok steps ->
    exists final,
      final_step steps = Some final /\
      tag final = "PWNED" /\
      Py.dict_get String.eqb (vals final) (dq +++ "correct_hash" +++ dq)
        = Some (Py.hex_upper (evil_hash info)) /\
      Py.dict_get String.eqb (vals final) (dq +++ "calculated_hash" +++ dq)
        = Some (Py.hex_upper (evil_hash info)).
Proof.
  split; [reflexivity|].
  unfold bootrom_verify_vulnerable.
  destruct (Py.getitem (raw blk) (off_byte0 blk)) as [b0|e0];
    [|cbn [bind]; discriminate].
  destruct (Py.getitem (raw blk) (off_byte1 blk)) as [b1|e1];
    [|cbn [bind]; discriminate].
  destruct (Py.getitem (raw blk) (off_0d blk)) as [skip|e2];
    [|cbn [bind]; discriminate].
  cbn [bind]. intros steps H. injection H as <-.
  eexists. split; [reflexivity|]. split; [reflexivity|].
  split; reflexivity.
Qed.

Lemma vulnerable_trace_compares_nothing_witness :
  exists steps final,
    bootrom_verify_vulnerable (padded_block demo_firmware 13 x0d) []
      (forged_info demo_firmware) = Ok steps /\
    final_step steps = Some final /\
    tag final = "PWNED" /\
    Py.dict_get String.eqb (vals final) (dq +++ "correct_hash" +++ dq)
      = Some (Py.hex_upper (SHA256.digest demo_firmware)).
Proof.
  destruct (bootrom_verify_vulnerable (padded_block demo_firmware 13 x0d) []
              (forged_info demo_firmware)) as [steps|e] eqn:E.
  - destruct (proj2 (vulnerable_trace_compares_nothing
                       (padded_block demo_firmware 13 x0d) [] []
                       (forged_info demo_firmware)) steps E)
      as (final & Ef & Ht & Hc & _).
    exists steps, final. split; [reflexivity|]. split; [exact Ef|].
    split; [exact Ht|]. exact Hc.
  - exfalso. vm_compute in E. discriminate E.
Defined.

(* ================================================================== *)
(** * The offsets a trace hands to the view *)

(** X15: in both traces, for every firmware, every offset a step
    highlights and every cursor position it gives ([pointer_at],
    [pointer_lands]) is an index of the bytes the step shows in
    [hex_block]; the first step, which shows no bytes, gives none. *)
Theorem trace_offsets_stay_inside_the_block (F : list byte) :
  (exists steps,
     bootrom_verify_correct F = Ok steps /\
     forallb offsets_inside steps = true) /\
  (exists blk steps,
     forgeAndTraceExploit F = Ok (blk, steps) /\
     forallb offsets_inside steps = true).
Proof.
  pose proof (digest_length F) as Hd.
  split.
  - unfold bootrom_verify_correct, __init__, INNER_BLOCK_REAL_LEN.
    rewrite (build_padded F 13 x0d) by reflexivity.
    cbn [bind]. unfold verify_correct_steps.
    cbn [raw off_byte0 off_byte1 off_padding_start off_separator off_30_1
         off_31 off_30_2 off_0d off_inner_start off_inner_end off_04 off_20
         off_correct_hash padded_block].
    assert (Hlen : Py.len (padded_raw x0d (SHA256.digest F)) = 127).
    { unfold Py.len. rewrite padded_raw_length by exact Hd. reflexivity. }
    rewrite !Hlen. clear Hlen.
    rewrite !padded_raw_fixed.
    rewrite !getitem_app_lead by closed_bounds.
    rewrite !slice_app_lead by closed_bounds.
    rewrite !(slice_app_rest_at (padded_fixed x0d) (SHA256.digest F))
      by (reflexivity || (unfold Py.len; rewrite Hd; reflexivity)).
    rewrite !bytes_eqb_refl.
    generalize dependent (SHA256.digest F). intros d Hd.
    evaluate_reads.
    eexists. split; [reflexivity|].
    do 32 (destruct d as [|? d]; [discriminate Hd|]).
    destruct d; [|discriminate Hd].
    vm_compute. reflexivity.
  - unfold forgeAndTraceExploit. rewrite forge_sighax_eq.
    cbn [bind fst snd]. unfold bootrom_verify_vulnerable.
    cbn [raw off_byte0 off_byte1 off_separator off_30_1 off_31 off_30_2 off_0d
         off_inner_start unpadded_block forged_block forged_info
         evil_hash skip_lands_at].
    assert (Hlen : Py.len (unpadded_raw x02 x0f (SHA256.digest F)) = 54).
    { unfold Py.len. rewrite unpadded_raw_length by exact Hd. reflexivity. }
    rewrite !Hlen. clear Hlen.
    rewrite !unpadded_raw_fixed.
    rewrite !getitem_app_lead by closed_bounds.
    rewrite !(slice_app_rest_at (unpadded_fixed x02 x0f) (SHA256.digest F))
      by (reflexivity || (unfold Py.len; rewrite Hd; reflexivity)).
    generalize dependent (SHA256.digest F). intros d Hd.
    evaluate_reads.
    do 2 eexists. split; [reflexivity|].
    do 32 (destruct d as [|? d]; [discriminate Hd|]).
    destruct d; [|discriminate Hd].
    vm_compute. reflexivity.
Qed.

(** X22: in the trace of a forged block, for every evil firmware, the
    step of the skip byte (number 4) highlights the skip byte and, as
    skipped, exactly the offsets from [off_inner_start] up to
    [off_correct_hash], where it says the cursor lands; the next step
    (number 5) highlights exactly the 32 offsets of the hash field, and
    the hash it shows as read there is taken from the block and is the
    SHA-256 digest of the evil firmware. *)
Theorem forged_skip_lands_on_the_embedded_hash (F : list byte) :
  exists blk steps skip read,
    forgeAndTraceExploit F = Ok (blk, steps) /\
    step_numbered 4 steps = Some skip /\
    highlight_bytes skip =
      Some ((off_0d blk, "key_byte")
            :: map (fun i => (i, "skipped"))
                   (Py.range (off_inner_start blk) (off_correct_hash blk))) /\
    pointer_at skip = Some (off_0d blk) /\
    pointer_lands skip = Some (off_correct_hash blk) /\
    step_numbered 5 steps = Some read /\
    highlight_bytes read =
      Some (map (fun i => (i, "hash_confused"))
                (Py.range (off_correct_hash blk) (off_calc_hash blk))) /\
    Py.dict_get String.eqb (vals read) (dq +++ "correct_hash" +++ dq +++ " leído")
      = Some (Py.hex_upper
                (Py.slice (raw blk) (off_correct_hash blk) (off_calc_hash blk))) /\
    Py.slice (raw blk) (off_correct_hash blk) (off_calc_hash blk)
      = SHA256.digest F.
Proof.
  pose proof (digest_length F) as Hd.
  unfold forgeAndTraceExploit. rewrite forge_sighax_eq.
  cbn [bind fst snd]. unfold bootrom_verify_vulnerable.
  exists (forged_block F).
  cbn [raw off_byte0 off_byte1 off_separator off_30_1 off_31 off_30_2 off_0d
       off_inner_start off_correct_hash off_calc_hash unpadded_block
       forged_block forged_info evil_hash skip_lands_at].
  assert (Hlen : Py.len (unpadded_raw x02 x0f (SHA256.digest F)) = 54).
  { unfold Py.len. rewrite unpadded_raw_length by exact Hd. reflexivity. }
  rewrite !Hlen. clear Hlen.
  rewrite !unpadded_raw_fixed.
  rewrite !getitem_app_lead by closed_bounds.
  change (22 + HASH_LEN) with 54.
  rewrite !(slice_app_rest_at (unpadded_fixed x02 x0f) (SHA256.digest F))
    by (reflexivity || (unfold Py.len; rewrite Hd; reflexivity)).
  remember (SHA256.digest F) as d eqn:Ed.
  evaluate_reads.
  do 3 eexists.
  split; [reflexivity|]. split; [reflexivity|]. split; [reflexivity|].
  split; [reflexivity|]. split; [reflexivity|]. split; [reflexivity|].
  split; [reflexivity|]. split; reflexivity.
Qed.
(* ================================================================== *)
(** * The cursor of the view along the legitimate trace *)

(** X16: for every firmware, the segments that [get_cursor_and_active]
    gives for the ten steps of [bootrom_verify_correct] are: none for
    steps 0 and 1, then start, start, padding, sep, asn1_30a, len_byte,
    asn1_31 and correct_hash, cursor and active segment being the same.
    So the step that reads the padding type (step 3) puts the cursor on
    the segment of byte 0, the step of the two ignored bytes 0x04 0x20
    (step 8) puts it on the segment of the 0x31 marker, and every name
    the trace highlights is a key of [HIGHLIGHT_TO_SEG]. *)
Theorem cursor_along_the_legitimate_trace (F : list byte) :
  exists steps,
    bootrom_verify_correct F = Ok steps /\
    map get_cursor_and_active steps =
      map (fun seg => (seg, seg))
          [None; None; Some "start"; Some "start"; Some "padding";
           Some "sep"; Some "asn1_30a"; Some "len_byte"; Some "asn1_31";
           Some "correct_hash"] /\
    forallb (fun s =>
               match highlight_bytes s with
               | Some d =>
                   forallb (fun kv =>
                              match Py.dict_get String.eqb HIGHLIGHT_TO_SEG
                                                (snd kv) with
                              | Some _ => true
                              | None => false
                              end) d
               | None => true
               end) steps = true.
Proof.
  pose proof (digest_length F) as Hd.
  unfold bootrom_verify_correct, __init__, INNER_BLOCK_REAL_LEN.
  rewrite (build_padded F 13 x0d) by reflexivity.
  cbn [bind]. unfold verify_correct_steps.
  cbn [raw off_byte0 off_byte1 off_padding_start off_separator off_30_1
       off_31 off_30_2 off_0d off_inner_start off_inner_end off_04 off_20
       off_correct_hash padded_block].
  assert (Hlen : Py.len (padded_raw x0d (SHA256.digest F)) = 127).
  { unfold Py.len. rewrite padded_raw_length by exact Hd. reflexivity. }
  rewrite !Hlen. clear Hlen.
  rewrite !padded_raw_fixed.
  rewrite !getitem_app_lead by closed_bounds.
  rewrite !slice_app_lead by closed_bounds.
  rewrite !(slice_app_rest_at (padded_fixed x0d) (SHA256.digest F))
    by (reflexivity || (unfold Py.len; rewrite Hd; reflexivity)).
  rewrite !bytes_eqb_refl.
  generalize dependent (SHA256.digest F). intros d Hd.
  evaluate_reads.
  eexists. split; [reflexivity|].
  do 32 (destruct d as [|? d]; [discriminate Hd|]).
  destruct d; [|discriminate Hd].
  split; vm_compute; reflexivity.
Qed.
(* ================================================================== *)
(** * The hex dump in any number of columns *)

(** ** One line *)




(** ** The chunks *)




(** ** The lines of a dump *)




(** ** The characters of a dump *)












(** ** Further properties of [hex_dump] *)









